(** * The AdaNet objective tutorial: [_SimpleDNNBuilder] and [SimpleDNNGenerator]

    A shallow embedding of the two classes defined in
    [adanet/examples/tutorials/adanet_objective.ipynb] and of the small part
    of the TensorFlow and AdaNet interfaces they are written against.

    - Python integers are unbounded, so depths, seeds and round indices are
      [Z].  Python's [None] for an optional value is [None : option _].
      A depth read back from a constant of the graph is a NumPy integer in
      the running system, and the [+ 1] on it is an int64 addition that
      wraps around.  [generate_candidates] is therefore embedded twice: with
      the integers of mathematics, and ([generate_candidates_numpy]) with
      the addition NumPy does.  The two agree wherever the depth after the
      previous one is an int64, which is every depth a graph was ever built
      for.
    - A method is a computation over the object it is called on ([self]):
      it returns a value or raises, and hands back the object as the call
      left it.  That a method leaves its object alone is then a theorem
      about the method, not a feature of the notation.
    - TensorFlow graph construction is symbolic: [tf.sqrt x] does not take a
      square root, it denotes the node that will.  A [tf.Tensor] is
      therefore a term, and the meaning of a scalar term is given twice:
      over the reals, and in IEEE binary32 arithmetic as the standard
      library's [SpecFloat] defines it.  The two are related: the binary32
      score is the real one rounded. *)

From Stdlib Require Import ZArith QArith String Ascii Decimal DecimalString DecimalZ.
From Stdlib Require Import Reals Lra Floats.SpecFloat.
From stdpp Require Import base option list gmap strings.

Local Open Scope Z_scope.

(** ** Python: exceptions, methods, a few built-ins *)

Module py.

Inductive Exception : Type :=
| IndexError   (* [l[-1]] on an empty list *)
| KeyError     (* [d[k]] for a key that is not in [d] *)
| TypeError.   (* [None + 1] *)

Inductive Outcome (A : Type) : Type :=
| Return (a : A)
| Raise (e : Exception).
Arguments Return {A} a.
Arguments Raise {A} e.

(** A method run on [self]: its outcome and [self] afterwards. *)
Definition Method (Self A : Type) : Type := Self → Outcome A * Self.

Definition ret {Self A} (a : A) : Method Self A := λ self, (Return a, self).

Definition bind {Self A B} (f : A → Method Self B) (m : Method Self A)
  : Method Self B :=
  λ self,
    match m self with
    | (Return a, self') => f a self'
    | (Raise e, self') => (Raise e, self')
    end.

Definition raise {Self A} (e : Exception) : Method Self A :=
  λ self, (Raise e, self).

(** [self.field] *)
Definition attr {Self A} (field : Self → A) : Method Self A :=
  λ self, (Return (field self), self).

(** [self.field = a], through the record update [set]. *)
Definition setattr {Self A} (set : A → Self → Self) (a : A) : Method Self unit :=
  λ self, (Return tt, set a self).

Definition result {Self A} (m : Method Self A) (self : Self) : Outcome A :=
  fst (m self).
Definition after {Self A} (m : Method Self A) (self : Self) : Self :=
  snd (m self).

(** [d[k]] on a dict. *)
Definition getitem {Self V} (d : gmap string V) (k : string) : Method Self V :=
  match d !! k with
  | Some v => ret v
  | None => raise KeyError
  end.

(** [l[-1]] on a list. *)
Definition getitem_last {Self A} (l : list A) : Method Self A :=
  match last l with
  | Some a => ret a
  | None => raise IndexError
  end.

(** [range(n)]: [0, 1, ..., n-1], empty when [n <= 0]. *)
Definition range (n : Z) : list Z := seqZ 0 n.

(** [for x in xs: acc = body(x, acc)] *)
Fixpoint for_in {Self A St} (xs : list A) (body : A → St → Method Self St)
    (acc : St) : Method Self St :=
  match xs with
  | [] => ret acc
  | x :: xs' => bind (for_in xs' body) (body x acc)
  end.

(** [str(n)], which is what ["{}".format(n)] prints for an integer:
    decimal digits, a leading [-] for negative numbers, no leading zeros. *)
Definition str (n : Z) : string := NilZero.string_of_int (Z.to_int n).

End py.

Import py.

Global Instance method_ret {Self} : MRet (Method Self) := λ A, @py.ret Self A.
Global Instance method_bind {Self} : MBind (Method Self) := λ A B, @py.bind Self A B.

(** Looking into an outcome that is a return value. *)
Global Instance outcome_fmap : FMap Outcome :=
  λ A B f o,
    match o with
    | Return a => Return (f a)
    | Raise e => Raise e
    end.

(** ** TensorFlow: the graph terms the notebook builds *)

Module tf.

(** [tf.glorot_uniform_initializer(seed=...)] *)
Inductive Initializer : Type :=
| glorot_uniform_initializer (seed : option Z).

(** Activation functions; the notebook uses [tf.nn.relu] only. *)
Inductive Activation : Type :=
| relu.

Inductive Tensor : Type :=
| placeholder (name : string)        (* a tensor fed from outside the graph *)
| constant (value : Z)               (* [tf.constant(n)] for an integer [n] *)
| to_float (x : Tensor)              (* [tf.to_float(x)]: cast to float32 *)
| sqrt (x : Tensor)                  (* [tf.sqrt(x)] *)
| dense (inputs : Tensor) (units : Z) (activation : option Activation)
        (kernel_initializer : Initializer).   (* [tf.layers.dense(...)] *)

(** The term [dense inputs units ...] is written down for every [units];
    the library builds the layer for a positive number of units and raises
    [ValueError] for a negative one.  The widths of the notebook are
    positive, and what is proved of a built network is about those. *)

(** An op that takes a tensor accepts a Python number and wraps it. *)
Definition convert_to_tensor (n : Z) : Tensor := constant n.

(** An [Optimizer] instance, e.g.
    [tf.train.RMSPropOptimizer(learning_rate=0.001)]. *)
Record Optimizer : Type := {
  optimizer_type : string;
  learning_rate : Q
}.

Inductive Operation : Type :=
| no_op                                          (* [tf.no_op()] *)
| minimize (optimizer : Optimizer) (loss : Tensor) (var_list : list string).
                                                 (* [optimizer.minimize(loss=, var_list=)] *)

(** [tf.contrib.util.constant_value(t)]: the value of [t] when [t] is a
    constant of the graph, Python's [None] when it is not known
    statically.  The embedding reads integer constants, which is what the
    builders of the notebook persist.  The library also folds a cast of a
    constant, to a float ([statically_known] below says of which tensors it
    knows the value at all); a depth that is a float has no place in a
    [_SimpleDNNBuilder.t], and no statement of this development is about
    an ensemble that persisted one. *)
Definition constant_value (t : Tensor) : option Z :=
  match t with
  | constant v => Some v
  | _ => None
  end.

(** Whether [constant_value] knows the value of a tensor before the graph
    runs: it does for a constant and for a cast of what it knows, and for
    nothing else the notebook builds. *)
Fixpoint statically_known (t : Tensor) : bool :=
  match t with
  | constant _ => true
  | to_float x => statically_known x
  | _ => false
  end.

(** *** The value of a scalar term *)

(** Over the reals: an integer constant is itself, the cast is exact, and
    the square root is defined on the non-negative reals.  [None] where
    the term has no real value. *)
Fixpoint real_value (t : Tensor) : option R :=
  match t with
  | constant v => Some (IZR v)
  | to_float x => real_value x
  | sqrt x =>
      match real_value x with
      | Some r => if Rle_dec 0 r then Some (R_sqrt.sqrt r) else None
      | None => None
      end
  | _ => None
  end.

(** In the arithmetic the graph runs in.  An integer constant is an int32;
    [to_float] rounds it to the nearest binary32 number (ties to even);
    [sqrt] is the correctly rounded binary32 square root and is not
    defined on integer tensors.  (A constant that does not fit an int32 is
    an int64 in the library; the embedding gives it no value, and what is
    proved of the binary32 score is stated for the depths an int32
    holds.) *)
Inductive Value : Type :=
| int32 (n : Z)
| float32 (x : spec_float).

Definition prec : Z := 24.
Definition emax : Z := 128.

Definition int32_min : Z := - 2 ^ 31.
Definition int32_max : Z := 2 ^ 31 - 1.

Fixpoint value (t : Tensor) : option Value :=
  match t with
  | constant v =>
      if (int32_min <=? v) && (v <=? int32_max) then Some (int32 v) else None
  | to_float x =>
      match value x with
      | Some (int32 n) => Some (float32 (binary_normalize prec emax n 0 false))
      | Some (float32 f) => Some (float32 f)
      | None => None
      end
  | sqrt x =>
      match value x with
      | Some (float32 f) => Some (float32 (SFsqrt prec emax f))
      | _ => None
      end
  | _ => None
  end.

(** *** The shape of a stack of dense layers *)

(** The dense layers of a network, from the one next to the input to the
    topmost, each with its width, activation and initializer. *)
Fixpoint layers (t : Tensor) : list (Z * option Activation * Initializer) :=
  match t with
  | dense inputs units activation kernel_initializer =>
      layers inputs ++ [(units, activation, kernel_initializer)]
  | _ => []
  end.

(** What the bottom layer is applied to. *)
Fixpoint network_input (t : Tensor) : Tensor :=
  match t with
  | dense inputs _ _ _ => network_input inputs
  | _ => t
  end.

End tf.

(** ** AdaNet: what a builder returns and what a generator is given *)

Module adanet.

(** [adanet.Subnetwork(last_layer=, logits=, complexity=, persisted_tensors=)] *)
Record Subnetwork : Type := {
  last_layer : tf.Tensor;
  logits : tf.Tensor;
  complexity : tf.Tensor;
  persisted_tensors : gmap string tf.Tensor
}.

Record WeightedSubnetwork : Type := {
  subnetwork : Subnetwork
}.

Record Ensemble : Type := {
  weighted_subnetworks : list WeightedSubnetwork
}.

(** The summary writer and the reports are handed over by the engine and
    are not looked at by the notebook's classes. *)
Inductive Summary : Type := summary_scope (scope : string).
Inductive MaterializedReport : Type := materialized_report (name : string).

(** [adanet.subnetwork.Builder]: the methods a builder implements. *)
Class Builder (B : Type) : Type := {
  build_subnetwork :
    gmap string tf.Tensor → Z → bool → tf.Tensor → Summary →
    option Ensemble → Method B Subnetwork;
  build_subnetwork_train_op :
    Subnetwork → tf.Tensor → list string → tf.Tensor → tf.Tensor →
    Summary → option Ensemble → Method B tf.Operation;
  build_mixture_weights_train_op :
    tf.Tensor → list string → tf.Tensor → tf.Tensor → tf.Tensor →
    Summary → Method B tf.Operation;
  name : Method B string
}.

(** [adanet.subnetwork.Generator]: proposes builders for the next round. *)
Class Generator (G B : Type) `{Builder B} : Type := {
  generate_candidates :
    option Ensemble → Z → list MaterializedReport →
    list MaterializedReport → Method G (list B)
}.

End adanet.

Definition FEATURES_KEY : string := "x".
Definition _NUM_LAYERS_KEY : string := "num_layers".

(** ** [class _SimpleDNNBuilder(adanet.subnetwork.Builder)] *)

Module _SimpleDNNBuilder.

Record t : Type := __init__ {
  _optimizer : tf.Optimizer;
  _layer_size : Z;
  _num_layers : Z;
  _learn_mixture_weights : bool;
  _seed : option Z
}.

(** Approximates Rademacher complexity as the square-root of the depth. *)
Definition _measure_complexity : Method t tf.Tensor :=
  num_layers ← attr _num_layers;
  mret (tf.sqrt (tf.to_float (tf.convert_to_tensor num_layers))).

Definition build_subnetwork
    (features : gmap string tf.Tensor) (logits_dimension : Z)
    (training : bool) (iteration_step : tf.Tensor)
    (summary : adanet.Summary)
    (previous_ensemble : option adanet.Ensemble)
  : Method t adanet.Subnetwork :=
  x ← getitem features FEATURES_KEY;
  let input_layer := tf.to_float x in
  seed ← attr _seed;
  let kernel_initializer := tf.glorot_uniform_initializer seed in
  let last_layer := input_layer in
  num_layers ← attr _num_layers;
  last_layer ← for_in (range num_layers)
    (λ _ last_layer,
       layer_size ← attr _layer_size;
       mret (tf.dense last_layer layer_size (Some tf.relu) kernel_initializer))
    last_layer;
  let logits := tf.dense last_layer logits_dimension None kernel_initializer in
  num_layers ← attr _num_layers;
  let persisted_tensors : gmap string tf.Tensor :=
    {[ _NUM_LAYERS_KEY := tf.constant num_layers ]} in
  complexity ← _measure_complexity;
  mret {| adanet.last_layer := last_layer;
          adanet.logits := logits;
          adanet.complexity := complexity;
          adanet.persisted_tensors := persisted_tensors |}.

Definition build_subnetwork_train_op
    (subnetwork : adanet.Subnetwork) (loss : tf.Tensor)
    (var_list : list string) (labels : tf.Tensor)
    (iteration_step : tf.Tensor) (summary : adanet.Summary)
    (previous_ensemble : option adanet.Ensemble)
  : Method t tf.Operation :=
  optimizer ← attr _optimizer;
  mret (tf.minimize optimizer loss var_list).

Definition build_mixture_weights_train_op
    (loss : tf.Tensor) (var_list : list string) (logits labels : tf.Tensor)
    (iteration_step : tf.Tensor) (summary : adanet.Summary)
  : Method t tf.Operation :=
  learn_mixture_weights ← attr _learn_mixture_weights;
  if negb learn_mixture_weights then
    mret tf.no_op
  else
    optimizer ← attr _optimizer;
    mret (tf.minimize optimizer loss var_list).

(** The [name] property. *)
Definition name : Method t string :=
  num_layers ← attr _num_layers;
  if num_layers =? 0 then
    (* A DNN with no hidden layers is a linear model. *)
    mret "linear"
  else
    mret (str num_layers +:+ "_layer_dnn").

End _SimpleDNNBuilder.

(** ** NumPy: the integers [constant_value] hands back *)

Module numpy.

Definition int64_min : Z := - 2 ^ 63.
Definition int64_max : Z := 2 ^ 63 - 1.

(** The int64 a sum comes out as: two's complement, no overflow check. *)
Definition int64 (n : Z) : Z := (n - int64_min) mod 2 ^ 64 + int64_min.

(** [a + b] where [a] is the integer of a 0-d array and [b] a Python
    integer: the operands are promoted to int64 and the sum wraps. *)
Definition add (a b : Z) : Z := int64 (a + b).

End numpy.

(** ** [class SimpleDNNGenerator(adanet.subnetwork.Generator)] *)

Module SimpleDNNGenerator.

(** [functools.partial(_SimpleDNNBuilder, optimizer=, layer_size=,
    learn_mixture_weights=)]: the keyword arguments already bound. *)
Record partial : Type := {
  optimizer : tf.Optimizer;
  layer_size : Z;
  learn_mixture_weights : bool
}.

(** Calling the partial with the two remaining keyword arguments. *)
Definition call (fn : partial) (num_layers : Z) (seed : option Z)
  : _SimpleDNNBuilder.t :=
  _SimpleDNNBuilder.__init__
    (optimizer fn) (layer_size fn) num_layers (learn_mixture_weights fn) seed.

Record t : Type := {
  _seed : option Z;
  _dnn_builder_fn : partial
}.

(** [__init__(self, optimizer, layer_size=32, learn_mixture_weights=False,
    seed=None)] *)
Definition __init__ (optimizer : tf.Optimizer) (layer_size : Z)
    (learn_mixture_weights : bool) (seed : option Z) : t :=
  {| _seed := seed;
     _dnn_builder_fn :=
       {| optimizer := optimizer;
          layer_size := layer_size;
          learn_mixture_weights := learn_mixture_weights |} |}.

Definition default_layer_size : Z := 32.
Definition default_learn_mixture_weights : bool := false.
Definition default_seed : option Z := None.

(** [previous_ensemble] is [None] in the first round and an
    [adanet.Ensemble] afterwards; an ensemble object is truthy, so
    [if previous_ensemble:] asks whether there is one.
    [num_layers] is an integer or, when [constant_value] cannot tell,
    [None]; [None + 1] raises before any builder is handed out. *)
Definition generate_candidates
    (previous_ensemble : option adanet.Ensemble) (iteration_number : Z)
    (previous_ensemble_reports all_reports : list adanet.MaterializedReport)
  : Method t (list _SimpleDNNBuilder.t) :=
  let num_layers : option Z := Some 0 in
  seed ← attr _seed;
  num_layers ←
    match previous_ensemble with
    | Some ensemble =>
        last_subnetwork ← getitem_last (adanet.weighted_subnetworks ensemble);
        tensor ← getitem
          (adanet.persisted_tensors (adanet.subnetwork last_subnetwork))
          _NUM_LAYERS_KEY;
        mret (tf.constant_value tensor)
    | None => mret num_layers
    end;
  let seed :=
    match seed with
    | Some s => Some (s + iteration_number)
    | None => None
    end in
  match num_layers with
  | Some num_layers =>
      same ← (dnn_builder_fn ← attr _dnn_builder_fn;
              mret (call dnn_builder_fn num_layers seed));
      deeper ← (dnn_builder_fn ← attr _dnn_builder_fn;
                mret (call dnn_builder_fn (num_layers + 1) seed));
      mret [same; deeper]
  | None => raise TypeError
  end.

(** The same method with the arithmetic of the running system: the depth
    [constant_value] returns is a NumPy integer, so [num_layers + 1] is
    [numpy.add].  Without a previous ensemble [num_layers] is Python's [0],
    and [0 + 1] is [1] in both arithmetics. *)
Definition generate_candidates_numpy
    (previous_ensemble : option adanet.Ensemble) (iteration_number : Z)
    (previous_ensemble_reports all_reports : list adanet.MaterializedReport)
  : Method t (list _SimpleDNNBuilder.t) :=
  let num_layers : option Z := Some 0 in
  seed ← attr _seed;
  num_layers ←
    match previous_ensemble with
    | Some ensemble =>
        last_subnetwork ← getitem_last (adanet.weighted_subnetworks ensemble);
        tensor ← getitem
          (adanet.persisted_tensors (adanet.subnetwork last_subnetwork))
          _NUM_LAYERS_KEY;
        mret (tf.constant_value tensor)
    | None => mret num_layers
    end;
  let seed :=
    match seed with
    | Some s => Some (s + iteration_number)
    | None => None
    end in
  match num_layers with
  | Some num_layers =>
      same ← (dnn_builder_fn ← attr _dnn_builder_fn;
              mret (call dnn_builder_fn num_layers seed));
      deeper ← (dnn_builder_fn ← attr _dnn_builder_fn;
                mret (call dnn_builder_fn (numpy.add num_layers 1) seed));
      mret [same; deeper]
  | None => raise TypeError
  end.

End SimpleDNNGenerator.

#[export] Instance SimpleDNNBuilder_Builder : adanet.Builder _SimpleDNNBuilder.t := {
  adanet.build_subnetwork := _SimpleDNNBuilder.build_subnetwork;
  adanet.build_subnetwork_train_op := _SimpleDNNBuilder.build_subnetwork_train_op;
  adanet.build_mixture_weights_train_op :=
    _SimpleDNNBuilder.build_mixture_weights_train_op;
  adanet.name := _SimpleDNNBuilder.name
}.

#[export] Instance SimpleDNNGenerator_Generator :
  adanet.Generator SimpleDNNGenerator.t _SimpleDNNBuilder.t := {
  adanet.generate_candidates := SimpleDNNGenerator.generate_candidates
}.

(** ** Vocabulary of the statements *)

(** [previous_depth e d]: the subnetwork most recently added to the ensemble
    [e] persisted the depth [d] under [_NUM_LAYERS_KEY], as a constant of the
    graph. *)
Inductive previous_depth : adanet.Ensemble → Z → Prop :=
| previous_depth_last (earlier : list adanet.WeightedSubnetwork)
    (latest : adanet.WeightedSubnetwork) (d : Z) :
    adanet.persisted_tensors (adanet.subnetwork latest) !! _NUM_LAYERS_KEY
      = Some (tf.constant d) →
    previous_depth {| adanet.weighted_subnetworks := earlier ++ [latest] |} d.

(** What the engine passes as [previous_ensemble]: nothing in the first
    round, afterwards an ensemble whose latest member persisted a depth that
    is not negative. *)
Inductive engine_input : option adanet.Ensemble → Prop :=
| first_round : engine_input None
| later_round (e : adanet.Ensemble) (d : Z) :
    0 ≤ d → previous_depth e d → engine_input (Some e).

(** The depths of the candidates of a round, in the order they are
    proposed. *)
Definition depths (candidates : list _SimpleDNNBuilder.t) : list Z :=
  _SimpleDNNBuilder._num_layers <$> candidates.

(** The seed both candidates of a round are given. *)
Definition round_seed (self : SimpleDNNGenerator.t) (iteration_number : Z)
  : option Z :=
  match SimpleDNNGenerator._seed self with
  | Some s => Some (s + iteration_number)
  | None => None
  end.

(** A method that only reads: whatever it answers, [self] is as before. *)
Definition read_only {Self A} (m : Method Self A) : Prop :=
  ∀ self, after m self = self.

(** The complexity score of a builder: the value of the term its scorer
    returns, over the reals and in binary32. *)
Definition score (b : _SimpleDNNBuilder.t) : option R :=
  match result _SimpleDNNBuilder._measure_complexity b with
  | Return c => tf.real_value c
  | Raise _ => None
  end.

Definition score_float32 (b : _SimpleDNNBuilder.t) : option tf.Value :=
  match result _SimpleDNNBuilder._measure_complexity b with
  | Return c => tf.value c
  | Raise _ => None
  end.

(** Binary32 numbers [m * 2^e], written as the standard library's
    [spec_float] has them (a 24-bit mantissa). *)
Definition float32_zero : spec_float := S754_zero false.
Definition float32_one : spec_float := S754_finite false 8388608 (-23).
Definition float32_two : spec_float := S754_finite false 8388608 (-22).

(** The initializer and the two kinds of layer a builder stacks. *)
Definition kernel_initializer (b : _SimpleDNNBuilder.t) : tf.Initializer :=
  tf.glorot_uniform_initializer (_SimpleDNNBuilder._seed b).

Definition hidden_layer (b : _SimpleDNNBuilder.t)
  : Z * option tf.Activation * tf.Initializer :=
  (_SimpleDNNBuilder._layer_size b, Some tf.relu, kernel_initializer b).

Definition logits_layer (b : _SimpleDNNBuilder.t) (logits_dimension : Z)
  : Z * option tf.Activation * tf.Initializer :=
  (logits_dimension, None, kernel_initializer b).

(** The network after the loop of [build_subnetwork] has run over [xs],
    started from [below]. *)
Definition stacked (b : _SimpleDNNBuilder.t) {A} (xs : list A) (below : tf.Tensor)
  : tf.Tensor :=
  foldl (λ last_layer _,
           tf.dense last_layer (_SimpleDNNBuilder._layer_size b) (Some tf.relu)
             (kernel_initializer b))
    below xs.

(** *** Binary32 rounding, for the proofs about [score_float32] *)

(** The binary32 number an int32 is cast to, and the binary32 score of a
    depth. *)
Definition to_float32 (d : Z) : spec_float :=
  binary_normalize tf.prec tf.emax d 0 false.

Definition float32_score_of_depth (d : Z) : spec_float :=
  SFsqrt tf.prec tf.emax (to_float32 d).

(** [located X P rec]: the shift record [rec] describes the number [X / P].
    Its mantissa is the integer part, and its round and sticky bits say where
    the remainder [lo] lies: nowhere, below the half, on it, above it. *)
Definition located (X P : Z) (rec : shr_record) : Prop :=
  0 ≤ shr_m rec ∧
  ∃ lo, X = shr_m rec * P + lo ∧ 0 ≤ lo < P ∧
    match shr_r rec, shr_s rec with
    | false, false => lo = 0
    | false, true => 0 < 2 * lo < P
    | true, false => 2 * lo = P
    | true, true => P < 2 * lo
    end.

(** The mantissa a shift record rounds to (to nearest, ties to even). *)
Definition rne (rec : shr_record) : Z :=
  round_nearest_even (shr_m rec) (loc_of_shr_record rec).

(** A rounded mantissa [2^23 <= M <= 2^24] with its exponent, as a binary32
    number: [2^24] is carried into the exponent. *)
Definition pack (M e : Z) : spec_float :=
  if M <? 2 ^ 24 then S754_finite false (Z.to_pos M) e
  else S754_finite false (Z.to_pos (2 ^ 23)) (e + 1).

(** The order of positive normal numbers: by exponent, then by mantissa. *)
Definition lex_le (e1 M1 e2 M2 : Z) : Prop := e1 < e2 ∨ (e1 = e2 ∧ M1 ≤ M2).

(** The real number a binary32 number stands for; none for the infinities
    and for NaN. *)
Definition float32_real (x : spec_float) : option R :=
  match x with
  | S754_zero _ => Some 0%R
  | S754_finite s m e =>
      Some ((if s then -1 else 1) * IZR (Zpos m) * powerRZ 2 e)%R
  | _ => None
  end.

(** The integer square root, rounded to nearest. *)
Definition rsqrt (x : Z) : Z :=
  let q := Z.sqrt x in if x - q * q <=? q then q else q + 1.

(** ** The notebook's own configuration, used for the worked examples *)

Definition RANDOM_SEED : Z := 42.
Definition LEARNING_RATE : Q := 1 # 1000.

Definition notebook_optimizer : tf.Optimizer :=
  {| tf.optimizer_type := "RMSPropOptimizer"; tf.learning_rate := LEARNING_RATE |}.

(** [SimpleDNNGenerator(optimizer=..., learn_mixture_weights=..., seed=RANDOM_SEED)] *)
Definition notebook_generator (learn_mixture_weights : bool) : SimpleDNNGenerator.t :=
  SimpleDNNGenerator.__init__ notebook_optimizer
    SimpleDNNGenerator.default_layer_size learn_mixture_weights (Some RANDOM_SEED).

(** The same generator left unseeded. *)
Definition unseeded_generator : SimpleDNNGenerator.t :=
  SimpleDNNGenerator.__init__ notebook_optimizer
    SimpleDNNGenerator.default_layer_size
    SimpleDNNGenerator.default_learn_mixture_weights
    SimpleDNNGenerator.default_seed.

(** A builder as the notebook's generator makes them. *)
Definition notebook_builder (num_layers : Z) : _SimpleDNNBuilder.t :=
  SimpleDNNGenerator.call
    (SimpleDNNGenerator._dnn_builder_fn (notebook_generator false))
    num_layers (Some RANDOM_SEED).

Definition notebook_features : gmap string tf.Tensor :=
  {[ FEATURES_KEY := tf.placeholder "log1p_x" ]}.

(** A member of an ensemble that persisted the depth [d]. *)
Definition member (d : Z) : adanet.WeightedSubnetwork :=
  {| adanet.subnetwork :=
       {| adanet.last_layer := tf.placeholder "last_layer";
          adanet.logits := tf.placeholder "logits";
          adanet.complexity := tf.sqrt (tf.to_float (tf.constant d));
          adanet.persisted_tensors := {[ _NUM_LAYERS_KEY := tf.constant d ]} |} |}.

Definition ensemble (ds : list Z) : adanet.Ensemble :=
  {| adanet.weighted_subnetworks := member <$> ds |}.

(** ** The input pipeline: [input_fn] *)

Module data.

(** The four arrays of [tf.keras.datasets.boston_housing.load_data()]. *)
Inductive Array : Type := x_train | y_train | x_test | y_test.

(** [tf.log1p(a)] on an array of the data set. *)
Inductive Source : Type := log1p (a : Array).

(** A [tf.data.Dataset], as the chain of calls that made it. *)
Inductive Dataset : Type :=
| from_tensor_slices (features : gmap string Source) (labels : Source)
| shuffle (dataset : Dataset) (buffer_size : Z) (seed : option Z)
| repeat (dataset : Dataset)
| batch (dataset : Dataset) (batch_size : Z).

(** The feature columns of the elements of a dataset. *)
Fixpoint element_features (dataset : Dataset) : gmap string Source :=
  match dataset with
  | from_tensor_slices features _ => features
  | shuffle dataset _ _ => element_features dataset
  | repeat dataset => element_features dataset
  | batch dataset _ => element_features dataset
  end.


(** Whether a dataset goes on for ever, and whether it is shuffled. *)
Fixpoint repeats (dataset : Dataset) : bool :=
  match dataset with
  | from_tensor_slices _ _ => false
  | shuffle dataset _ _ => repeats dataset
  | repeat _ => true
  | batch dataset _ => repeats dataset
  end.

Fixpoint shuffles (dataset : Dataset) : bool :=
  match dataset with
  | from_tensor_slices _ _ => false
  | shuffle _ _ _ => true
  | repeat dataset => shuffles dataset
  | batch dataset _ => shuffles dataset
  end.

(** No shuffle runs over a repeated dataset, where its buffer would blend
    one epoch into the next. *)
Fixpoint epochs_apart (dataset : Dataset) : bool :=
  match dataset with
  | from_tensor_slices _ _ => true
  | shuffle dataset _ _ => negb (repeats dataset) && epochs_apart dataset
  | repeat dataset => epochs_apart dataset
  | batch dataset _ => epochs_apart dataset
  end.

(** The arrays a dataset reads. *)
Fixpoint labels_of (dataset : Dataset) : Source :=
  match dataset with
  | from_tensor_slices _ labels => labels
  | shuffle dataset _ _ => labels_of dataset
  | repeat dataset => labels_of dataset
  | batch dataset _ => labels_of dataset
  end.

End data.

(** The dataset [_input_fn] builds before it asks for the iterator. *)
Definition input_dataset (partition : string) (training : bool) (batch_size : Z)
  : data.Dataset :=
  let dataset :=
    if String.eqb partition "train" then
      data.from_tensor_slices
        {[ FEATURES_KEY := data.log1p data.x_train ]} (data.log1p data.y_train)
    else
      data.from_tensor_slices
        {[ FEATURES_KEY := data.log1p data.x_test ]} (data.log1p data.y_test) in
  let dataset :=
    if training then
      (* We call repeat after shuffling, rather than before, to prevent
         separate epochs from blending together. *)
      data.repeat (data.shuffle dataset (10 * batch_size) (Some RANDOM_SEED))
    else dataset in
  data.batch dataset batch_size.


(** ** Reading the result: [ensemble_architecture] *)

Module summary_pb.

(** The fields of the [Summary] protocol buffer the notebook reads. *)
Record TensorProto : Type := { string_val : list string }.
Record Value : Type := { tensor : TensorProto }.
Record Summary : Type := { value : list Value }.

End summary_pb.

(** A function, as opposed to a method: no object is involved. *)
Definition outcome_bind {A B} (f : A → Outcome B) (o : Outcome A) : Outcome B :=
  match o with
  | Return a => f a
  | Raise e => Raise e
  end.

Global Instance outcome_mbind : MBind Outcome := λ A B, @outcome_bind A B.
Global Instance outcome_mret : MRet Outcome := λ A, @Return A.

(** [l[0]] on a list or a repeated field. *)
Definition getitem_first {A} (l : list A) : Outcome A :=
  match l with
  | a :: _ => Return a
  | [] => Raise IndexError
  end.

Section EnsembleArchitecture.

(** [tf.summary.Summary.FromString]: the parser of the serialized proto,
    which returns the message or raises. *)
Variable FromString : string → Outcome summary_pb.Summary.

(** Extracts the ensemble architecture from evaluation results. *)
Definition ensemble_architecture (result : gmap string string) : Outcome string :=
  architecture ←
    match result !! "architecture/adanet/ensembles" with
    | Some bytes => Return bytes
    | None => Raise KeyError
    end;
  (* The architecture is a serialized Summary proto for TensorBoard. *)
  summary_proto ← FromString architecture;
  first_value ← getitem_first (summary_pb.value summary_proto);
  getitem_first (summary_pb.string_val (summary_pb.tensor first_value)).

End EnsembleArchitecture.

(** ** Rounds of the engine *)

(** The ensemble after the engine has added a subnetwork to it. *)
Definition append_member (previous_ensemble : option adanet.Ensemble)
    (sn : adanet.Subnetwork) : adanet.Ensemble :=
  {| adanet.weighted_subnetworks :=
       match previous_ensemble with
       | Some e => adanet.weighted_subnetworks e
       | None => []
       end ++ [ {| adanet.subnetwork := sn |} ] |}.

(** [grown g k e]: the engine can hold the ensemble [e] after [k] rounds
    with the generator [g].  In a round it asks [g] for candidates, has some
    of them build their subnetworks, and either keeps the ensemble it had or
    adds one of the subnetworks built.  Which one is the engine's business
    (it trains and compares them); nothing is assumed about it here, nor
    about the features and flags it passes along. *)
Inductive grown (g : SimpleDNNGenerator.t) : nat → option adanet.Ensemble → Prop :=
| grown_start : grown g 0 None
| grown_keep (k : nat) (previous_ensemble : option adanet.Ensemble) :
    grown g k previous_ensemble → grown g (S k) previous_ensemble
| grown_add (k : nat) (previous_ensemble : option adanet.Ensemble)
    (previous_ensemble_reports all_reports : list adanet.MaterializedReport)
    (candidates : list _SimpleDNNBuilder.t) (b : _SimpleDNNBuilder.t)
    (features : gmap string tf.Tensor) (logits_dimension : Z) (training : bool)
    (iteration_step : tf.Tensor) (summary : adanet.Summary)
    (sn : adanet.Subnetwork) :
    grown g k previous_ensemble →
    result (SimpleDNNGenerator.generate_candidates previous_ensemble
              (Z.of_nat k) previous_ensemble_reports all_reports) g
    = Return candidates →
    b ∈ candidates →
    result (_SimpleDNNBuilder.build_subnetwork features logits_dimension
              training iteration_step summary previous_ensemble) b
    = Return sn →
    grown g (S k) (Some (append_member previous_ensemble sn)).

(** The depth a member persisted, read the way the generator reads it. *)
Definition persisted_depth (member : adanet.WeightedSubnetwork) : option Z :=
  match adanet.persisted_tensors (adanet.subnetwork member) !! _NUM_LAYERS_KEY with
  | Some tensor => tf.constant_value tensor
  | None => None
  end.

(** The depths of the members of an ensemble, oldest first. *)
Definition member_depths (previous_ensemble : option adanet.Ensemble)
  : list (option Z) :=
  match previous_ensemble with
  | Some e => persisted_depth <$> adanet.weighted_subnetworks e
  | None => []
  end.

(** [climbs below ds]: starting from [below], each depth of [ds] is the one
    before it or one more. *)
Fixpoint climbs (below : Z) (ds : list Z) : bool :=
  match ds with
  | [] => true
  | d :: ds' => ((d =? below) || (d =? below + 1)) && climbs d ds'
  end.

(** The subnetwork a builder of the notebook builds on the notebook's
    features. *)
Definition built (previous_ensemble : option adanet.Ensemble)
    (b : _SimpleDNNBuilder.t) : adanet.Subnetwork :=
  match
    result (_SimpleDNNBuilder.build_subnetwork notebook_features 1 true
              (tf.placeholder "iteration_step") (adanet.summary_scope "adanet")
              previous_ensemble) b
  with
  | Return sn => sn
  | Raise _ =>
      {| adanet.last_layer := tf.placeholder "none";
         adanet.logits := tf.placeholder "none";
         adanet.complexity := tf.placeholder "none";
         adanet.persisted_tensors := ∅ |}
  end.

(** The builder the generator [g] makes in round [k] for the depth [d]. *)
Definition round_builder (g : SimpleDNNGenerator.t) (k : nat) (d : Z)
  : _SimpleDNNBuilder.t :=
  SimpleDNNGenerator.call (SimpleDNNGenerator._dnn_builder_fn g) d
    (round_seed g (Z.of_nat k)).

(** A run of the engine that, from round [k] on, adds a subnetwork of the
    depths [ds] in turn, each built on the notebook's features. *)
Fixpoint run_from (g : SimpleDNNGenerator.t) (k : nat)
    (previous_ensemble : option adanet.Ensemble) (ds : list Z)
  : option adanet.Ensemble :=
  match ds with
  | [] => previous_ensemble
  | d :: ds' =>
      run_from g (S k)
        (Some (append_member previous_ensemble
                 (built previous_ensemble (round_builder g k d))))
        ds'
  end.
(** The depth of the latest member of an ensemble; 0 when there is none. *)
Definition latest_depth (previous_ensemble : option adanet.Ensemble) : Z :=
  match last (member_depths previous_ensemble) with
  | Some (Some d) => d
  | _ => 0
  end.

(** * Properties *)

(** ** Running methods *)

Lemma run_bind {Self A B} (m : Method Self A) (f : A → Method Self B) self :
  (m ≫= f) self =
  match m self with
  | (Return a, self') => f a self'
  | (Raise e, self') => (Raise e, self')
  end.
Proof. reflexivity. Qed.

Lemma run_attr {Self A B} (field : Self → A) (f : A → Method Self B) self :
  (attr field ≫= f) self = f (field self) self.
Proof. reflexivity. Qed.

Lemma getitem_Some {Self V} (d : gmap string V) k v (self : Self) :
  d !! k = Some v → getitem d k self = (Return v, self).
Proof. intros E. unfold getitem. now rewrite E. Qed.

Lemma getitem_None {Self V} (d : gmap string V) k (self : Self) :
  d !! k = None → getitem d k self = (Raise KeyError, self).
Proof. intros E. unfold getitem. now rewrite E. Qed.

Lemma getitem_last_snoc {Self A} (l : list A) (a : A) (self : Self) :
  getitem_last (l ++ [a]) self = (Return a, self).
Proof. unfold getitem_last. now rewrite last_snoc. Qed.

Lemma read_only_ret {Self A} (a : A) : read_only (mret a : Method Self A).
Proof. intros self. reflexivity. Qed.

Lemma read_only_raise {Self A} e : read_only (raise e : Method Self A).
Proof. intros self. reflexivity. Qed.

Lemma read_only_attr {Self A} (field : Self → A) : read_only (attr field).
Proof. intros self. reflexivity. Qed.

Lemma read_only_getitem {Self V} (d : gmap string V) k :
  read_only (getitem d k : Method Self V).
Proof. intros self. unfold getitem. now destruct (d !! k). Qed.

Lemma read_only_getitem_last {Self A} (l : list A) :
  read_only (getitem_last l : Method Self A).
Proof. intros self. unfold getitem_last. now destruct (last l). Qed.

Lemma read_only_bind {Self A B} (m : Method Self A) (f : A → Method Self B) :
  read_only m → (∀ a, read_only (f a)) → read_only (m ≫= f).
Proof.
  intros Hm Hf self. unfold after. rewrite run_bind.
  specialize (Hm self). unfold after in Hm.
  destruct (m self) as [[a|e] self']; simpl in *; subst self'.
  - apply Hf.
  - reflexivity.
Qed.

Lemma read_only_for_in {Self A St} (xs : list A) (body : A → St → Method Self St) :
  (∀ x acc, read_only (body x acc)) → ∀ acc, read_only (for_in xs body acc).
Proof.
  intros Hbody. induction xs as [|x xs IH]; intros acc; simpl.
  - apply (read_only_ret acc).
  - apply (read_only_bind (body x acc) (for_in xs body)); auto.
Qed.

(** Writing to a field is what [read_only] rules out. *)
Lemma setattr_not_read_only :
  ¬ read_only (setattr (λ (b : bool) (_ : bool), b) true).
Proof. intros H. specialize (H false). discriminate H. Qed.

Ltac read_only :=
  repeat first
    [ apply read_only_attr | apply read_only_getitem | apply read_only_getitem_last
    | apply read_only_raise | apply read_only_ret
    | apply read_only_for_in; intros ? ?
    | apply read_only_bind; [|intros ?]
    | match goal with
      | |- read_only (match ?x with _ => _ end) => destruct x
      end ].

(** ** The generator *)

Section Generator.

Import SimpleDNNGenerator.

Variable self : SimpleDNNGenerator.t.
Variable iteration_number : Z.
Variables previous_ensemble_reports all_reports : list adanet.MaterializedReport.

Lemma generate_candidates_first_round :
  generate_candidates None iteration_number previous_ensemble_reports all_reports self
  = (Return [ call (_dnn_builder_fn self) 0 (round_seed self iteration_number);
              call (_dnn_builder_fn self) 1 (round_seed self iteration_number) ],
     self).
Proof. reflexivity. Qed.

Lemma generate_candidates_later_round e d :
  previous_depth e d →
  generate_candidates (Some e) iteration_number previous_ensemble_reports all_reports self
  = (Return [ call (_dnn_builder_fn self) d (round_seed self iteration_number);
              call (_dnn_builder_fn self) (d + 1) (round_seed self iteration_number) ],
     self).
Proof.
  intros [earlier latest d' Hd].
  unfold generate_candidates. rewrite run_attr. rewrite run_bind.
  rewrite run_bind. cbn [adanet.weighted_subnetworks].
  rewrite getitem_last_snoc. rewrite run_bind.
  rewrite (getitem_Some _ _ _ _ Hd). reflexivity.
Qed.

Lemma generate_candidates_read_only previous_ensemble :
  read_only (generate_candidates previous_ensemble iteration_number
               previous_ensemble_reports all_reports).
Proof. unfold generate_candidates. read_only. Qed.

(** Outside what the engine passes, the look-ups of the method raise: on an
    ensemble without members, on a latest member that persisted nothing under
    [_NUM_LAYERS_KEY], and on one that persisted a tensor whose value is not
    known before the graph runs. *)
Lemma generate_candidates_empty_ensemble :
  result (generate_candidates (Some {| adanet.weighted_subnetworks := [] |})
            iteration_number previous_ensemble_reports all_reports) self
  = Raise IndexError.
Proof. reflexivity. Qed.

Lemma generate_candidates_nothing_persisted earlier latest :
  adanet.persisted_tensors (adanet.subnetwork latest) !! _NUM_LAYERS_KEY = None →
  result (generate_candidates
            (Some {| adanet.weighted_subnetworks := earlier ++ [latest] |})
            iteration_number previous_ensemble_reports all_reports) self
  = Raise KeyError.
Proof.
  intros Hd. unfold result, generate_candidates.
  rewrite run_attr, run_bind, run_bind. cbn [adanet.weighted_subnetworks].
  rewrite getitem_last_snoc, run_bind.
  now rewrite (getitem_None _ _ _ Hd).
Qed.

Lemma generate_candidates_not_constant earlier latest tensor :
  adanet.persisted_tensors (adanet.subnetwork latest) !! _NUM_LAYERS_KEY
    = Some tensor →
  tf.constant_value tensor = None →
  result (generate_candidates
            (Some {| adanet.weighted_subnetworks := earlier ++ [latest] |})
            iteration_number previous_ensemble_reports all_reports) self
  = Raise TypeError.
Proof.
  intros Hd Hc. unfold result, generate_candidates.
  rewrite run_attr, run_bind, run_bind. cbn [adanet.weighted_subnetworks].
  rewrite getitem_last_snoc, run_bind.
  rewrite (getitem_Some _ _ _ _ Hd). cbn. now rewrite Hc.
Qed.

(** A negative depth, which no builder of the generator persists, is passed
    on as it is. *)
Lemma generate_candidates_unguarded :
  depths <$>
    result (generate_candidates (Some (ensemble [-1])) iteration_number
              previous_ensemble_reports all_reports) self
  = Return [-1; 0].
Proof. reflexivity. Qed.

End Generator.

(** ** The generator, case by case *)

Section GeneratorCases.

Import SimpleDNNGenerator.

Variable self : SimpleDNNGenerator.t.
Variable iteration_number : Z.
Variables previous_ensemble_reports all_reports : list adanet.MaterializedReport.

(** What [generate_candidates] does on an ensemble, by its latest member. *)
Lemma generate_candidates_cases (e : adanet.Ensemble) :
  result (generate_candidates (Some e) iteration_number
            previous_ensemble_reports all_reports) self
  = match last (adanet.weighted_subnetworks e) with
    | None => Raise IndexError
    | Some latest =>
        match adanet.persisted_tensors (adanet.subnetwork latest) !! _NUM_LAYERS_KEY with
        | None => Raise KeyError
        | Some tensor =>
            match tf.constant_value tensor with
            | None => Raise TypeError
            | Some d =>
                Return [ call (_dnn_builder_fn self) d (round_seed self iteration_number);
                         call (_dnn_builder_fn self) (d + 1)
                           (round_seed self iteration_number) ]
            end
        end
    end.
Proof.
  destruct e as [members]. cbn [adanet.weighted_subnetworks].
  destruct (last members) as [latest|] eqn:Hlast.
  - apply last_Some in Hlast as [earlier ->].
    destruct (adanet.persisted_tensors (adanet.subnetwork latest) !! _NUM_LAYERS_KEY)
      as [tensor|] eqn:Hkey.
    + destruct (tf.constant_value tensor) as [d|] eqn:Hconst.
      * destruct tensor; try discriminate. injection Hconst as ->.
        unfold result.
        now rewrite (generate_candidates_later_round self iteration_number
                       previous_ensemble_reports all_reports _ d
                       (previous_depth_last earlier latest d Hkey)).
      * now apply generate_candidates_not_constant with tensor.
    + now apply generate_candidates_nothing_persisted.
  - apply last_None in Hlast as ->. reflexivity.
Qed.

Lemma previous_depth_iff (e : adanet.Ensemble) (d : Z) :
  previous_depth e d ↔
  ∃ latest, last (adanet.weighted_subnetworks e) = Some latest
            ∧ adanet.persisted_tensors (adanet.subnetwork latest) !! _NUM_LAYERS_KEY
              = Some (tf.constant d).
Proof.
  split.
  - intros [earlier latest d' Hd]. exists latest. split; [|exact Hd].
    cbn. apply last_snoc.
  - intros (latest & Hlast & Hd). destruct e as [members]. cbn in Hlast.
    apply last_Some in Hlast as [earlier ->]. now constructor.
Qed.

End GeneratorCases.

(** Whatever [generate_candidates] returns is the pair of builders its
    partial makes of some depth and the next. *)
Lemma generate_candidates_returns
    (g : SimpleDNNGenerator.t) (previous_ensemble : option adanet.Ensemble)
    (iteration_number : Z)
    (previous_ensemble_reports all_reports : list adanet.MaterializedReport)
    (candidates : list _SimpleDNNBuilder.t) :
  result (SimpleDNNGenerator.generate_candidates previous_ensemble
            iteration_number previous_ensemble_reports all_reports) g
  = Return candidates →
  ∃ d,
    candidates
    = [ SimpleDNNGenerator.call (SimpleDNNGenerator._dnn_builder_fn g) d
          (round_seed g iteration_number);
        SimpleDNNGenerator.call (SimpleDNNGenerator._dnn_builder_fn g) (d + 1)
          (round_seed g iteration_number) ]
    ∧ match previous_ensemble with
      | None => d = 0
      | Some e => previous_depth e d
      end.
Proof.
  destruct previous_ensemble as [e|].
  - rewrite generate_candidates_cases. intros H.
    destruct (last (adanet.weighted_subnetworks e)) as [latest|] eqn:Hlast;
      [|discriminate].
    destruct (adanet.persisted_tensors (adanet.subnetwork latest) !! _NUM_LAYERS_KEY)
      as [tensor|] eqn:Hkey; [|discriminate].
    destruct tensor; try discriminate. cbn in H. injection H as <-.
    eexists. split; [reflexivity|].
    apply previous_depth_iff. now exists latest.
  - unfold result. rewrite generate_candidates_first_round. intros [= <-].
    now exists 0.
Qed.

(** ** The generator in NumPy's arithmetic *)

Lemma int64_in_range (n : Z) :
  numpy.int64_min ≤ n ≤ numpy.int64_max → numpy.int64 n = n.
Proof.
  unfold numpy.int64, numpy.int64_min, numpy.int64_max. intros H.
  rewrite Z.mod_small; lia.
Qed.

Lemma add_in_range (a b : Z) :
  numpy.int64_min ≤ a + b ≤ numpy.int64_max → numpy.add a b = a + b.
Proof. apply int64_in_range. Qed.


Section GeneratorNumpy.

Import SimpleDNNGenerator.

Variable self : SimpleDNNGenerator.t.
Variable iteration_number : Z.
Variables previous_ensemble_reports all_reports : list adanet.MaterializedReport.

Lemma generate_candidates_numpy_first_round :
  generate_candidates_numpy None iteration_number previous_ensemble_reports
    all_reports self
  = (Return [ call (_dnn_builder_fn self) 0 (round_seed self iteration_number);
              call (_dnn_builder_fn self) 1 (round_seed self iteration_number) ],
     self).
Proof. reflexivity. Qed.

Lemma generate_candidates_numpy_later_round e d :
  previous_depth e d →
  generate_candidates_numpy (Some e) iteration_number previous_ensemble_reports
    all_reports self
  = (Return [ call (_dnn_builder_fn self) d (round_seed self iteration_number);
              call (_dnn_builder_fn self) (numpy.add d 1)
                (round_seed self iteration_number) ],
     self).
Proof.
  intros [earlier latest d' Hd].
  unfold generate_candidates_numpy. rewrite run_attr. rewrite run_bind.
  rewrite run_bind. cbn [adanet.weighted_subnetworks].
  rewrite getitem_last_snoc. rewrite run_bind.
  rewrite (getitem_Some _ _ _ _ Hd). reflexivity.
Qed.

(** The two embeddings of the method are one wherever the depth after the
    previous one is an int64; they raise on the same ensembles. *)
Lemma generate_candidates_numpy_agrees previous_ensemble :
  (∀ e d, previous_ensemble = Some e → previous_depth e d →
          numpy.int64_min ≤ d + 1 ≤ numpy.int64_max) →
  generate_candidates_numpy previous_ensemble iteration_number
    previous_ensemble_reports all_reports self
  = generate_candidates previous_ensemble iteration_number
      previous_ensemble_reports all_reports self.
Proof.
  intros Hrange. destruct previous_ensemble as [[members]|]; [|reflexivity].
  destruct (last members) as [latest|] eqn:Hlast.
  - apply last_Some in Hlast as [earlier ->].
    destruct (adanet.persisted_tensors (adanet.subnetwork latest) !! _NUM_LAYERS_KEY)
      as [tensor|] eqn:Hkey.
    + destruct tensor as [name|d|x|x|inputs units activation initializer].
      2:{ pose proof (previous_depth_last earlier latest d Hkey) as Hd.
          rewrite (generate_candidates_numpy_later_round _ _ Hd).
          rewrite (generate_candidates_later_round self iteration_number
                     previous_ensemble_reports all_reports _ _ Hd).
          now rewrite add_in_range by (now apply (Hrange _ d eq_refl)). }
      all: unfold generate_candidates_numpy, generate_candidates;
        rewrite !run_attr, !run_bind; cbn [adanet.weighted_subnetworks];
        rewrite !getitem_last_snoc, !run_bind;
        rewrite !(getitem_Some _ _ _ _ Hkey); reflexivity.
    + unfold generate_candidates_numpy, generate_candidates.
      rewrite !run_attr, !run_bind. cbn [adanet.weighted_subnetworks].
      rewrite !getitem_last_snoc, !run_bind.
      now rewrite !(getitem_None _ _ _ Hkey).
  - apply last_None in Hlast as ->. reflexivity.
Qed.

End GeneratorNumpy.




(** C2: in round 0, when [generate_candidates] is called with no previous
    ensemble, the two candidates it returns have depths 0 and 1. *)
Theorem generate_candidates_round_0
    (g : SimpleDNNGenerator.t) (iteration_number : Z)
    (previous_ensemble_reports all_reports : list adanet.MaterializedReport) :
  ∃ linear one_layer,
    result (SimpleDNNGenerator.generate_candidates None iteration_number
              previous_ensemble_reports all_reports) g
    = Return [linear; one_layer]
    ∧ _SimpleDNNBuilder._num_layers linear = 0
    ∧ _SimpleDNNBuilder._num_layers one_layer = 1.
Proof.
  unfold result. rewrite generate_candidates_first_round.
  eexists _, _. split; [reflexivity|]. split; reflexivity.
Qed.

(** C7: on what the engine passes (no previous ensemble, or one whose latest
    member persisted a non-negative depth) and for every round index,
    [generate_candidates] returns its candidates and does not raise. *)
Theorem generate_candidates_total
    (g : SimpleDNNGenerator.t) (previous_ensemble : option adanet.Ensemble)
    (iteration_number : Z)
    (previous_ensemble_reports all_reports : list adanet.MaterializedReport) :
  engine_input previous_ensemble →
  ∃ candidates,
    result (SimpleDNNGenerator.generate_candidates previous_ensemble
              iteration_number previous_ensemble_reports all_reports) g
    = Return candidates.
Proof.
  intros [|e d _ Hd]; unfold result.
  - rewrite generate_candidates_first_round. eexists. reflexivity.
  - rewrite (generate_candidates_later_round _ _ _ _ _ _ Hd). eexists. reflexivity.
Qed.

Lemma generate_candidates_total_witness :
  ∃ candidates,
    result (SimpleDNNGenerator.generate_candidates (Some (ensemble [0; 0; 1])) 3 [] [])
      unseeded_generator
    = Return candidates.
Proof.
  apply (generate_candidates_total unseeded_generator (Some (ensemble [0; 0; 1])) 3 [] []).
  apply (later_round (ensemble [0; 0; 1]) 1).
  - lia.
  - apply (previous_depth_last [member 0; member 0] (member 1) 1). reflexivity.
Defined.

(** C10: in every call of [generate_candidates], whether it returns or
    raises, the seed stored in the generator is the same after the call;
    whatever a call returns is two candidates that are given the same seed:
    [None] when the generator was made with seed [None], whatever the round
    index, and the generator's seed plus [iteration_number] otherwise; and
    the call does return when there is no previous ensemble or the latest
    member of the previous ensemble persisted a depth, negative or not. *)
Theorem generate_candidates_seed
    (g : SimpleDNNGenerator.t) (previous_ensemble : option adanet.Ensemble)
    (iteration_number : Z)
    (previous_ensemble_reports all_reports : list adanet.MaterializedReport) :
  let call :=
    SimpleDNNGenerator.generate_candidates previous_ensemble iteration_number
      previous_ensemble_reports all_reports in
  SimpleDNNGenerator._seed (after call g) = SimpleDNNGenerator._seed g
  ∧ (∀ candidates,
       result call g = Return candidates →
       ∃ first second,
         candidates = [first; second]
         ∧ _SimpleDNNBuilder._seed first = _SimpleDNNBuilder._seed second
         ∧ _SimpleDNNBuilder._seed first =
             match SimpleDNNGenerator._seed g with
             | None => None
             | Some base_seed => Some (base_seed + iteration_number)
             end)
  ∧ ((previous_ensemble = None
      ∨ ∃ e d, previous_ensemble = Some e ∧ previous_depth e d) →
     ∃ candidates, result call g = Return candidates).
Proof.
  cbv zeta. split_and!.
  - now rewrite generate_candidates_read_only.
  - intros candidates Hret.
    destruct (generate_candidates_returns _ _ _ _ _ _ Hret) as (d & -> & _).
    eexists _, _. split; [reflexivity|]. split; reflexivity.
  - intros [->|(e & d & -> & Hd)]; unfold result.
    + rewrite generate_candidates_first_round. now eexists.
    + rewrite (generate_candidates_later_round _ _ _ _ _ _ Hd). now eexists.
Qed.

Lemma generate_candidates_seed_witness :
  ∃ first second,
    [ SimpleDNNGenerator.call
        (SimpleDNNGenerator._dnn_builder_fn (notebook_generator true)) (-1) (Some 43);
      SimpleDNNGenerator.call
        (SimpleDNNGenerator._dnn_builder_fn (notebook_generator true)) 0 (Some 43) ]
    = [first; second]
    ∧ _SimpleDNNBuilder._seed first = _SimpleDNNBuilder._seed second
    ∧ _SimpleDNNBuilder._seed first = Some (42 + 1).
Proof.
  apply (proj1 (proj2 (generate_candidates_seed (notebook_generator true)
                         (Some (ensemble [-1])) 1 [] []))).
  reflexivity.
Defined.

(** ** Binary32 arithmetic

    The standard library's [SpecFloat] gives the operations bit by bit.  What
    follows brings the cast of an int32 and the square root of a normal
    number into closed form, and from there shows that the binary32 score
    does not decrease with the depth. *)

(** Above the subnormal range the exponent of a number of [k] digits is
    [k - 24]. *)
Lemma fexp_float32 (k : Z) : -125 ≤ k → fexp tf.prec tf.emax k = k - 24.
Proof. intros H. unfold fexp, emin, tf.prec, tf.emax. lia. Qed.

(** The number of binary digits, through the powers of two around it. *)
Lemma digits2_pos_bounds (p : positive) :
  2 ^ (Zpos (digits2_pos p) - 1) ≤ Zpos p < 2 ^ Zpos (digits2_pos p).
Proof.
  induction p as [p IH|p IH|]; cbn [digits2_pos].
  - rewrite Pos2Z.inj_succ.
    replace (Z.succ (Zpos (digits2_pos p)) - 1) with (Z.succ (Zpos (digits2_pos p) - 1)) by lia.
    rewrite !Z.pow_succ_r by lia. lia.
  - rewrite Pos2Z.inj_succ.
    replace (Z.succ (Zpos (digits2_pos p)) - 1) with (Z.succ (Zpos (digits2_pos p) - 1)) by lia.
    rewrite !Z.pow_succ_r by lia. lia.
  - simpl. lia.
Qed.

Lemma digits2_pos_unique (p : positive) (k : Z) :
  2 ^ (k - 1) ≤ Zpos p < 2 ^ k → Zpos (digits2_pos p) = k.
Proof.
  intros [Hlo Hhi]. pose proof (digits2_pos_bounds p) as [Dlo Dhi].
  assert (0 < k).
  { destruct (Z.lt_trichotomy k 0) as [Hk|[Hk|Hk]]; [|subst; simpl in *; lia|lia].
    rewrite Z.pow_neg_r in Hhi by lia. lia. }
  destruct (Z.lt_trichotomy (Zpos (digits2_pos p)) k) as [Hk|[Hk|Hk]]; [|lia|].
  - assert (2 ^ Zpos (digits2_pos p) ≤ 2 ^ (k - 1)) by (apply Z.pow_le_mono_r; lia). lia.
  - assert (2 ^ k ≤ 2 ^ (Zpos (digits2_pos p) - 1)) by (apply Z.pow_le_mono_r; lia). lia.
Qed.

(** One shift to the right: the bit that falls off becomes the round bit,
    the old round bit is absorbed by the sticky bit. *)
Lemma shr_1_nonneg (m : Z) (r s : bool) :
  0 ≤ m →
  shr_1 (Build_shr_record m r s) = Build_shr_record (Z.div2 m) (Z.odd m) (r || s).
Proof.
  intros Hm. destruct m as [|[p|p|]|p]; try reflexivity. lia.
Qed.

Lemma located_exact (X : Z) : 0 ≤ X → located X 1 (Build_shr_record X false false).
Proof. intros HX. split; [assumption|]. exists 0. simpl. lia. Qed.

Lemma located_shr_1 (X P : Z) (rec : shr_record) :
  0 < P → located X P rec → located X (2 * P) (shr_1 rec).
Proof.
  intros HP [Hm (lo & HX & Hlo & Hcode)]. destruct rec as [m r s].
  simpl in Hm, HX, Hcode.
  rewrite shr_1_nonneg by assumption. unfold located. simpl.
  pose proof (Z.div2_odd m) as Hdiv.
  split; [apply Z.div2_nonneg; assumption|].
  destruct (Z.odd m); simpl in Hdiv.
  - exists (lo + P). split; [nia|]. split; [lia|].
    destruct r, s; simpl; lia.
  - exists lo. split; [nia|]. split; [lia|].
    destruct r, s; simpl; lia.
Qed.

Lemma pow2_xO (n : positive) : 2 ^ Zpos n~0 = 2 ^ Zpos n * 2 ^ Zpos n.
Proof.
  replace (Zpos n~0) with (Zpos n + Zpos n) by lia. apply Z.pow_add_r; lia.
Qed.

Lemma pow2_xI (n : positive) : 2 ^ Zpos n~1 = 2 * (2 ^ Zpos n * 2 ^ Zpos n).
Proof.
  replace (Zpos n~1) with (1 + (Zpos n + Zpos n)) by lia.
  rewrite !Z.pow_add_r by lia. reflexivity.
Qed.

(** [n] shifts divide by [2 ^ n] and keep track of the remainder. *)
Lemma located_iter_pos (n : positive) :
  ∀ X P rec, 0 < P → located X P rec →
  located X (P * 2 ^ Zpos n) (SpecFloat.iter_pos shr_1 n rec).
Proof.
  induction n as [n IH|n IH|]; intros X P rec HP Hloc; cbn [SpecFloat.iter_pos].
  - replace (P * 2 ^ Zpos n~1) with ((2 * P) * 2 ^ Zpos n * 2 ^ Zpos n)
      by (rewrite pow2_xI; lia).
    assert (0 < 2 ^ Zpos n) by (apply Z.pow_pos_nonneg; lia).
    apply IH; [nia|]. apply IH; [lia|]. now apply located_shr_1.
  - replace (P * 2 ^ Zpos n~0) with (P * 2 ^ Zpos n * 2 ^ Zpos n)
      by (rewrite pow2_xO; lia).
    assert (0 < 2 ^ Zpos n) by (apply Z.pow_pos_nonneg; lia).
    apply IH; [nia|]. now apply IH.
  - change (2 ^ 1) with 2. replace (P * 2) with (2 * P) by lia.
    now apply located_shr_1.
Qed.

(** Rounding to nearest is monotone, and stays within integer bounds. *)
Lemma rne_mono (X1 X2 P : Z) (rec1 rec2 : shr_record) :
  0 < P → located X1 P rec1 → located X2 P rec2 → X1 ≤ X2 →
  rne rec1 ≤ rne rec2.
Proof.
  intros HP [Hm1 (lo1 & HX1 & Hlo1 & Hc1)] [Hm2 (lo2 & HX2 & Hlo2 & Hc2)] HX.
  destruct rec1 as [m1 r1 s1], rec2 as [m2 r2 s2]. unfold rne. simpl in *.
  assert (m1 < m2 ∨ (m1 = m2 ∧ lo1 ≤ lo2)) as [Hlt|[-> Hle]] by nia.
  - destruct r1, s1, r2, s2; simpl; repeat destruct (Z.even _); lia.
  - destruct r1, s1, r2, s2; simpl; repeat destruct (Z.even _); lia.
Qed.

Lemma rne_bounds (X P : Z) (rec : shr_record) (lo hi : Z) :
  0 < P → located X P rec → lo * P ≤ X → X < hi * P →
  lo ≤ rne rec ≤ hi.
Proof.
  intros HP [Hm (l & HX & Hl & Hc)] Hlo Hhi.
  destruct rec as [m r s]. unfold rne. simpl in *.
  assert (lo ≤ m < hi) by nia.
  destruct r, s; simpl; repeat destruct (Z.even _); lia.
Qed.

(** Comparing positive finite numbers, and packed ones. *)
Lemma SFleb_finite (m1 m2 : positive) (e1 e2 : Z) :
  lex_le e1 (Zpos m1) e2 (Zpos m2) →
  SFleb (S754_finite false m1 e1) (S754_finite false m2 e2) = true.
Proof.
  intros [Hlt|[-> Hle]]; unfold SFleb, SFcompare.
  - apply Z.compare_lt_iff in Hlt. now rewrite Hlt.
  - rewrite Z.compare_refl. change (Pos.compare_cont Eq m1 m2) with (Pos.compare m1 m2).
    destruct (Pos.compare_spec m1 m2); try reflexivity. lia.
Qed.

Lemma pack_finite (M e : Z) :
  2 ^ 23 ≤ M ≤ 2 ^ 24 →
  ∃ m E, pack M e = S754_finite false m E
         ∧ 2 ^ 23 ≤ Zpos m < 2 ^ 24
         ∧ ((M < 2 ^ 24 ∧ Zpos m = M ∧ E = e) ∨ (M = 2 ^ 24 ∧ Zpos m = 2 ^ 23 ∧ E = e + 1)).
Proof.
  intros HM. unfold pack. destruct (Z.ltb_spec M (2 ^ 24)).
  - exists (Z.to_pos M), e. rewrite Z2Pos.id by lia. split; [reflexivity|]. lia.
  - eexists _, _. split; [reflexivity|]. simpl. lia.
Qed.

Lemma pack_le (M1 e1 M2 e2 : Z) :
  2 ^ 23 ≤ M1 ≤ 2 ^ 24 → 2 ^ 23 ≤ M2 ≤ 2 ^ 24 →
  lex_le e1 M1 e2 M2 →
  SFleb (pack M1 e1) (pack M2 e2) = true.
Proof.
  intros H1 H2 Hle.
  destruct (pack_finite M1 e1 H1) as (m1 & E1 & -> & Hm1 & Hc1).
  destruct (pack_finite M2 e2 H2) as (m2 & E2 & -> & Hm2 & Hc2).
  apply SFleb_finite. unfold lex_le in *. lia.
Qed.

Lemma Zdigits2_24 (M : Z) : 2 ^ 23 ≤ M < 2 ^ 24 → Zdigits2 M = 24.
Proof.
  intros HM. destruct M as [|p|p]; try (simpl in HM; lia).
  simpl. apply digits2_pos_unique. simpl. lia.
Qed.

(** The second half of [binary_round_aux]: a mantissa that rounding pushed
    to [2 ^ 24] is shifted once more. *)
Lemma renormalise (M e : Z) :
  2 ^ 23 ≤ M ≤ 2 ^ 24 → -149 ≤ e ≤ 103 →
  (let '(mrs, e') := shr_fexp tf.prec tf.emax M e loc_Exact in
   match shr_m mrs with
   | 0 => S754_zero false
   | Zpos m => if e' <=? tf.emax - tf.prec then S754_finite false m e' else S754_infinity false
   | Zneg _ => S754_nan
   end) = pack M e.
Proof.
  intros HM He. unfold pack. destruct (Z.ltb_spec M (2 ^ 24)) as [Hlt|Hge].
  - unfold shr_fexp. rewrite Zdigits2_24 by lia.
    rewrite fexp_float32 by lia.
    replace (24 + e - 24 - e) with 0 by lia. cbn [shr shr_record_of_loc shr_m].
    destruct M as [|p|p]; try (simpl in HM; lia).
    destruct (Z.leb_spec e (tf.emax - tf.prec)); [reflexivity|]. unfold tf.emax, tf.prec in *. lia.
  - assert (M = 2 ^ 24) as -> by lia.
    unfold shr_fexp. change (Zdigits2 (2 ^ 24)) with 25.
    rewrite fexp_float32 by lia.
    replace (25 + e - 24 - e) with 1 by lia. cbn.
    destruct (Z.leb_spec (e + 1) (tf.emax - tf.prec)); [reflexivity|]. unfold tf.emax, tf.prec in *. lia.
Qed.

Lemma loc_of_shr_record_of_loc (m : Z) (l : location) :
  loc_of_shr_record (shr_record_of_loc m l) = l ∧ shr_m (shr_record_of_loc m l) = m.
Proof. destruct l as [|[]]; split; reflexivity. Qed.

(** [binary_round_aux] on a mantissa of 24 digits, and on one with [j] digits
    too many. *)
Lemma binary_round_aux_24 (q e : Z) (l : location) :
  2 ^ 23 ≤ q < 2 ^ 24 → -149 ≤ e ≤ 103 →
  binary_round_aux tf.prec tf.emax false q e l = pack (round_nearest_even q l) e.
Proof.
  intros Hq He. unfold binary_round_aux.
  unfold shr_fexp at 1. rewrite Zdigits2_24 by lia.
  rewrite fexp_float32 by lia.
  replace (24 + e - 24 - e) with 0 by lia. cbn [shr].
  destruct (loc_of_shr_record_of_loc q l) as [-> ->].
  apply renormalise.
  - destruct l as [|[]]; simpl; try destruct (Z.even q); lia.
  - lia.
Qed.

Lemma binary_round_aux_shift (mx ex : Z) (j : positive) :
  2 ^ 23 * 2 ^ Zpos j ≤ mx < 2 ^ 24 * 2 ^ Zpos j →
  Zpos j ≤ 100 → -149 ≤ ex → ex + Zpos j ≤ 103 →
  ∃ rec, located mx (2 ^ Zpos j) rec
         ∧ binary_round_aux tf.prec tf.emax false mx ex loc_Exact
           = pack (rne rec) (ex + Zpos j).
Proof.
  intros Hmx Hj Hex Hexj.
  assert (Hpow : 0 < 2 ^ Zpos j) by (apply Z.pow_pos_nonneg; lia).
  assert (Hd : Zdigits2 mx = 24 + Zpos j).
  { destruct mx as [|p|p]; try lia.
    simpl. apply digits2_pos_unique.
    replace (24 + Zpos j - 1) with (23 + Zpos j) by lia.
    rewrite !Z.pow_add_r by lia. lia. }
  exists (SpecFloat.iter_pos shr_1 j (Build_shr_record mx false false)).
  assert (Hloc : located mx (2 ^ Zpos j)
                   (SpecFloat.iter_pos shr_1 j (Build_shr_record mx false false))).
  { replace (2 ^ Zpos j) with (1 * 2 ^ Zpos j) by lia.
    apply located_iter_pos; [lia|]. apply located_exact. lia. }
  split; [exact Hloc|].
  unfold binary_round_aux. unfold shr_fexp at 1. rewrite Hd.
  rewrite fexp_float32 by lia.
  replace (24 + Zpos j + ex - 24 - ex) with (Zpos j) by lia.
  cbn [shr shr_record_of_loc].
  apply renormalise.
  - apply (rne_bounds mx (2 ^ Zpos j)); [lia|exact Hloc|lia|lia].
  - lia.
Qed.

Lemma Pos_iter_xO (p n : positive) : Zpos (Pos.iter xO p n) = Zpos p * 2 ^ Zpos n.
Proof.
  revert p. induction n as [n IH|n IH|]; intros p; cbn [Pos.iter].
  - rewrite Pos2Z.inj_xO, !IH, pow2_xI. lia.
  - rewrite !IH, pow2_xO. lia.
  - change (2 ^ 1) with 2. lia.
Qed.

(** The cast of a positive int32 [d] of [k] digits: [d] is scaled to 24
    digits, rounding to nearest when [k > 24], and gets the exponent
    [k - 24]. *)
Lemma to_float32_spec (d : Z) :
  0 < d < 2 ^ 31 →
  ∃ k X P rec,
    2 ^ (k - 1) ≤ d < 2 ^ k ∧ 1 ≤ k ≤ 31
    ∧ X = d * 2 ^ Z.max 0 (24 - k) ∧ P = 2 ^ Z.max 0 (k - 24)
    ∧ located X P rec
    ∧ 2 ^ 23 ≤ rne rec ≤ 2 ^ 24
    ∧ to_float32 d = pack (rne rec) (k - 24).
Proof.
  intros Hd. destruct d as [|p|p]; try lia.
  pose proof (digits2_pos_bounds p) as Hk.
  set (k := Zpos (digits2_pos p)) in *.
  assert (Hk31 : 1 ≤ k ≤ 31).
  { split; [subst k; lia|].
    destruct (Z.le_gt_cases k 31) as [|Hgt]; [assumption|].
    assert (2 ^ 31 ≤ 2 ^ (k - 1)) by (apply Z.pow_le_mono_r; lia). lia. }
  unfold to_float32, binary_normalize, binary_round.
  fold k. rewrite Z.add_0_r, fexp_float32 by lia.
  unfold shl_align. rewrite Z.sub_0_r.
  destruct (k - 24) as [|j|j] eqn:Hj.
  - (* exactly 24 digits *)
    assert (k = 24) as Hk24 by lia. rewrite Hk24 in *.
    exists 24, (Zpos p), 1, (Build_shr_record (Zpos p) false false).
    change (2 ^ (24 - 1)) with (2 ^ 23) in Hk.
    split_and!; try lia.
    + change (2 ^ Z.max 0 (24 - 24)) with 1. lia.
    + reflexivity.
    + apply located_exact. lia.
    + unfold rne. simpl. lia.
    + unfold rne. simpl. lia.
    + rewrite binary_round_aux_24 by lia. reflexivity.
  - (* more: the low [j] bits are rounded away *)
    assert (Hkj : k = 24 + Zpos j) by lia.
    assert (Hb : 2 ^ 23 * 2 ^ Zpos j ≤ Zpos p < 2 ^ 24 * 2 ^ Zpos j).
    { rewrite <- !Z.pow_add_r by lia.
      replace (23 + Zpos j) with (k - 1) by lia.
      replace (24 + Zpos j) with k by lia. exact Hk. }
    destruct (binary_round_aux_shift (Zpos p) 0 j Hb) as (rec & Hloc & Hr); try lia.
    exists k, (Zpos p), (2 ^ Zpos j), rec.
    assert (Hpow : 0 < 2 ^ Zpos j) by (apply Z.pow_pos_nonneg; lia).
    pose proof (rne_bounds (Zpos p) (2 ^ Zpos j) rec (2 ^ 23) (2 ^ 24) Hpow Hloc
                  (proj1 Hb) (proj2 Hb)) as Hrne.
    split_and!; try lia.
    + replace (Z.max 0 (24 - k)) with 0 by lia. lia.
    + f_equal. lia.
    + exact Hloc.
    + rewrite Hr, Hj. reflexivity.
  - (* fewer: the mantissa is shifted up *)
    assert (Hkj : k = 24 - Zpos j) by lia.
    assert (Hpow : 2 ^ (k - 1) * 2 ^ Zpos j = 2 ^ 23 ∧ 2 ^ k * 2 ^ Zpos j = 2 ^ 24).
    { rewrite <- !Z.pow_add_r by lia. split; f_equal; lia. }
    assert (Hpos : 0 < 2 ^ Zpos j) by (apply Z.pow_pos_nonneg; lia).
    assert (Hm : 2 ^ 23 ≤ Zpos (Pos.iter xO p j) < 2 ^ 24)
      by (rewrite Pos_iter_xO; nia).
    exists k, (Zpos (Pos.iter xO p j)), 1,
      (Build_shr_record (Zpos (Pos.iter xO p j)) false false).
    split_and!; try lia.
    + rewrite Pos_iter_xO. do 2 f_equal. lia.
    + replace (Z.max 0 (k - 24)) with 0 by lia. reflexivity.
    + apply located_exact. lia.
    + unfold rne. simpl shr_m. simpl loc_of_shr_record. cbn [round_nearest_even]. lia.
    + unfold rne. simpl shr_m. simpl loc_of_shr_record. cbn [round_nearest_even]. lia.
    + rewrite binary_round_aux_24 by lia. rewrite Hj. reflexivity.
Qed.

Lemma pack_lex (M1 e1 M2 e2 : Z) :
  2 ^ 23 ≤ M1 ≤ 2 ^ 24 → 2 ^ 23 ≤ M2 ≤ 2 ^ 24 →
  lex_le e1 M1 e2 M2 →
  ∃ m1 E1 m2 E2,
    pack M1 e1 = S754_finite false m1 E1
    ∧ pack M2 e2 = S754_finite false m2 E2
    ∧ 2 ^ 23 ≤ Zpos m1 < 2 ^ 24 ∧ 2 ^ 23 ≤ Zpos m2 < 2 ^ 24
    ∧ e1 ≤ E1 ≤ e1 + 1 ∧ e2 ≤ E2 ≤ e2 + 1
    ∧ lex_le E1 (Zpos m1) E2 (Zpos m2).
Proof.
  intros H1 H2 Hle.
  destruct (pack_finite M1 e1 H1) as (m1 & E1 & -> & Hm1 & Hc1).
  destruct (pack_finite M2 e2 H2) as (m2 & E2 & -> & Hm2 & Hc2).
  exists m1, E1, m2, E2. unfold lex_le in *.
  split_and!; try reflexivity; lia.
Qed.

(** The cast is monotone, and its results are normal numbers. *)
Lemma to_float32_mono (d1 d2 : Z) :
  0 < d1 → d1 ≤ d2 → d2 < 2 ^ 31 →
  ∃ m1 E1 m2 E2,
    to_float32 d1 = S754_finite false m1 E1
    ∧ to_float32 d2 = S754_finite false m2 E2
    ∧ 2 ^ 23 ≤ Zpos m1 < 2 ^ 24 ∧ 2 ^ 23 ≤ Zpos m2 < 2 ^ 24
    ∧ -23 ≤ E1 ≤ 8 ∧ -23 ≤ E2 ≤ 8
    ∧ lex_le E1 (Zpos m1) E2 (Zpos m2).
Proof.
  intros H1 H12 H2.
  destruct (to_float32_spec d1) as (k1 & X1 & P1 & rec1 & Hk1 & Hr1 & HX1 & HP1 & Hl1 & Hb1 & ->);
    [lia|].
  destruct (to_float32_spec d2) as (k2 & X2 & P2 & rec2 & Hk2 & Hr2 & HX2 & HP2 & Hl2 & Hb2 & ->);
    [lia|].
  assert (Hk : k1 ≤ k2).
  { assert (2 ^ (k1 - 1) < 2 ^ k2) as Hp by lia.
    apply Z.pow_lt_mono_r_iff in Hp; lia. }
  assert (Hle : lex_le (k1 - 24) (rne rec1) (k2 - 24) (rne rec2)).
  { subst X1 X2 P1 P2.
    destruct (Z.eq_dec k1 k2) as [<-|Hne]; [right|left; lia].
    split; [reflexivity|].
    assert (HP : 0 < 2 ^ Z.max 0 (k1 - 24)) by (apply Z.pow_pos_nonneg; lia).
    apply (rne_mono _ _ _ rec1 rec2 HP Hl1 Hl2).
    apply Z.mul_le_mono_nonneg_r; [|lia].
    apply Z.pow_nonneg. lia. }
  destruct (pack_lex _ _ _ _ Hb1 Hb2 Hle)
    as (m1 & E1 & m2 & E2 & -> & -> & Hm1 & Hm2 & HE1 & HE2 & Hlex).
  exists m1, E1, m2, E2. split_and!; try reflexivity; try lia; exact Hlex.
Qed.

(** [rsqrt x] is an integer nearest to the square root of [x]. *)
Lemma rsqrt_nearest (x : Z) :
  0 < x → (2 * rsqrt x - 1) ^ 2 ≤ 4 * x < (2 * rsqrt x + 1) ^ 2.
Proof.
  intros Hx. unfold rsqrt. pose proof (Z.sqrt_spec x ltac:(lia)) as S.
  assert (0 < Z.sqrt x) by (apply Z.sqrt_pos; lia).
  rewrite !Z.pow_2_r. cbv zeta in S |- *. unfold Z.succ in S.
  destruct (Z.leb_spec (x - Z.sqrt x * Z.sqrt x) (Z.sqrt x));
    generalize dependent (Z.sqrt x); intros q; intros; nia.
Qed.

Lemma rsqrt_mono (x1 x2 : Z) : 0 ≤ x1 → x1 ≤ x2 → rsqrt x1 ≤ rsqrt x2.
Proof.
  intros H1 H12. unfold rsqrt.
  pose proof (Z.sqrt_le_mono x1 x2 H12) as Hq.
  pose proof (Z.sqrt_spec x1 H1) as S1.
  pose proof (Z.sqrt_spec x2 ltac:(lia)) as S2.
  destruct (Z.leb_spec (x1 - Z.sqrt x1 * Z.sqrt x1) (Z.sqrt x1)),
           (Z.leb_spec (x2 - Z.sqrt x2 * Z.sqrt x2) (Z.sqrt x2)); nia.
Qed.

Lemma rsqrt_bounds (x : Z) :
  2 ^ 46 ≤ x < 2 ^ 48 → 2 ^ 23 ≤ Z.sqrt x < 2 ^ 24 ∧ 2 ^ 23 ≤ rsqrt x ≤ 2 ^ 24.
Proof.
  intros Hx.
  assert (Hq : 2 ^ 23 ≤ Z.sqrt x < 2 ^ 24).
  { split.
    - apply Z.sqrt_le_square; lia.
    - apply Z.sqrt_lt_square; lia. }
  split; [exact Hq|]. unfold rsqrt. destruct (_ <=? _); lia.
Qed.

(** The square root of a normal number [m * 2 ^ E]: the mantissa is scaled
    by [2 ^ 23] or [2 ^ 24], whichever makes the exponent even, and its
    integer square root is rounded to nearest; the exponent is halved. *)
Lemma SFsqrt_spec (m : positive) (E : Z) :
  2 ^ 23 ≤ Zpos m < 2 ^ 24 → -23 ≤ E ≤ 8 →
  ∃ E' s,
    E' = Z.div2 (25 + E) - 24 ∧ s = E - 2 * E' ∧ (s = 23 ∨ s = 24)
    ∧ SFsqrt tf.prec tf.emax (S754_finite false m E) = pack (rsqrt (Zpos m * 2 ^ s)) E'.
Proof.
  intros Hm HE.
  exists (Z.div2 (25 + E) - 24), (E - 2 * (Z.div2 (25 + E) - 24)).
  pose proof (Z.div2_odd (25 + E)) as Hdiv.
  assert (Hs : E - 2 * (Z.div2 (25 + E) - 24) = 23 ∨ E - 2 * (Z.div2 (25 + E) - 24) = 24)
    by (destruct (Z.odd (25 + E)); simpl in Hdiv; lia).
  split_and!; [reflexivity|reflexivity|exact Hs|].
  unfold SFsqrt, SFsqrt_core_binary.
  change (Zdigits2 (Zpos m)) with (Zpos (digits2_pos m)).
  rewrite (digits2_pos_unique m 24) by (simpl; lia).
  replace (24 + E + 1) with (25 + E) by lia.
  rewrite fexp_float32 by (destruct (Z.odd (25 + E)); simpl in Hdiv; lia).
  pose proof (Z.div2_odd E) as HdivE.
  rewrite Z.min_l by (destruct (Z.odd (25 + E)), (Z.odd E); simpl in Hdiv, HdivE; lia).
  set (E' := Z.div2 (25 + E) - 24) in *.
  set (s := E - 2 * E') in *.
  assert (Hshift : match s with
                   | 0 => Zpos m
                   | Zpos _ => Z.shiftl (Zpos m) s
                   | Zneg _ => 0
                   end = Zpos m * 2 ^ s).
  { destruct s as [|p|p] eqn:Es; try lia. rewrite Z.shiftl_mul_pow2; lia. }
  rewrite Hshift.
  assert (Hx : 2 ^ 46 ≤ Zpos m * 2 ^ s < 2 ^ 48).
  { destruct Hs as [-> | ->]; lia. }
  destruct (rsqrt_bounds _ Hx) as [Hq Hr].
  pose proof (Z.sqrtrem_spec (Zpos m * 2 ^ s) ltac:(lia)) as Hspec.
  pose proof (Z.sqrtrem_sqrt (Zpos m * 2 ^ s)) as Hfst.
  destruct (Z.sqrtrem (Zpos m * 2 ^ s)) as [q r]. simpl in Hfst. subst q.
  destruct Hspec as [Hx' Hr'].
  rewrite binary_round_aux_24; [|lia|destruct (Z.odd (25 + E)); simpl in Hdiv; subst E'; lia].
  f_equal. unfold rsqrt.
  replace (Zpos m * 2 ^ s - Z.sqrt (Zpos m * 2 ^ s) * Z.sqrt (Zpos m * 2 ^ s)) with r by lia.
  destruct (Z.eqb_spec r 0) as [->|Hne].
  - simpl. destruct (Z.leb_spec 0 (Z.sqrt (Zpos m * 2 ^ s))); [reflexivity|lia].
  - now destruct (r <=? _).
Qed.

Lemma SFsqrt_mono (m1 m2 : positive) (E1 E2 : Z) :
  2 ^ 23 ≤ Zpos m1 < 2 ^ 24 → 2 ^ 23 ≤ Zpos m2 < 2 ^ 24 →
  -23 ≤ E1 ≤ 8 → -23 ≤ E2 ≤ 8 →
  lex_le E1 (Zpos m1) E2 (Zpos m2) →
  SFleb (SFsqrt tf.prec tf.emax (S754_finite false m1 E1))
        (SFsqrt tf.prec tf.emax (S754_finite false m2 E2)) = true.
Proof.
  intros Hm1 Hm2 HE1 HE2 Hle.
  destruct (SFsqrt_spec m1 E1 Hm1 HE1) as (E1' & s1 & HE1' & Hs1 & Hc1 & ->).
  destruct (SFsqrt_spec m2 E2 Hm2 HE2) as (E2' & s2 & HE2' & Hs2 & Hc2 & ->).
  pose proof (Z.div2_odd (25 + E1)) as Hd1.
  pose proof (Z.div2_odd (25 + E2)) as Hd2.
  assert (Hx1 : 2 ^ 46 ≤ Zpos m1 * 2 ^ s1 < 2 ^ 48) by (destruct Hc1 as [-> | ->]; lia).
  assert (Hx2 : 2 ^ 46 ≤ Zpos m2 * 2 ^ s2 < 2 ^ 48) by (destruct Hc2 as [-> | ->]; lia).
  apply pack_le; [apply rsqrt_bounds; exact Hx1|apply rsqrt_bounds; exact Hx2|].
  assert (HE' : E1' < E2' ∨ (E1' = E2' ∧ Zpos m1 * 2 ^ s1 ≤ Zpos m2 * 2 ^ s2)).
  { destruct (Z.odd (25 + E1)), (Z.odd (25 + E2)); simpl in Hd1, Hd2;
      destruct Hle as [Hlt|[Heq Hm]];
      destruct Hc1 as [Hc1|Hc1], Hc2 as [Hc2|Hc2]; try lia;
      destruct (Z.eq_dec E1' E2'); try (left; lia);
      right; (split; [assumption|]); rewrite Hc1, Hc2; lia. }
  destruct HE' as [Hlt|[Heq Hx]]; [left; exact Hlt|right].
  split; [exact Heq|]. apply rsqrt_mono; lia.
Qed.

(** The binary32 score does not decrease with the depth, over all the
    depths an int32 holds. *)
Lemma float32_score_monotone (d1 d2 : Z) :
  0 ≤ d1 → d1 ≤ d2 → d2 < 2 ^ 31 →
  SFleb (float32_score_of_depth d1) (float32_score_of_depth d2) = true.
Proof.
  intros H1 H12 H2. unfold float32_score_of_depth.
  destruct (Z.eq_dec d1 0) as [->|Hpos].
  - destruct (Z.eq_dec d2 0) as [->|Hpos2]; [reflexivity|].
    destruct (to_float32_mono d2 d2) as (m & E & _ & _ & -> & _ & Hm & _ & HE & _); try lia.
    destruct (SFsqrt_spec m E Hm HE) as (E' & s & _ & _ & Hc & ->).
    assert (Hx : 2 ^ 46 ≤ Zpos m * 2 ^ s < 2 ^ 48) by (destruct Hc as [-> | ->]; lia).
    destruct (pack_finite (rsqrt (Zpos m * 2 ^ s)) E') as (m' & E'' & -> & _);
      [apply rsqrt_bounds; exact Hx|].
    reflexivity.
  - destruct (to_float32_mono d1 d2) as (m1 & E1 & m2 & E2 & -> & -> & Hm1 & Hm2 & HE1 & HE2 & Hle);
      try lia.
    now apply SFsqrt_mono.
Qed.

(** *** How far the binary32 score is from the square root *)

Lemma float32_real_pack (M e : Z) :
  2 ^ 23 ≤ M ≤ 2 ^ 24 →
  float32_real (pack M e) = Some (IZR M * powerRZ 2 e)%R.
Proof.
  intros HM. destruct (pack_finite M e HM) as (m & E & -> & Hm & [(H1 & H2 & ->)|(H1 & H2 & ->)]).
  - simpl. rewrite H2. f_equal. lra.
  - simpl. rewrite H2, H1. f_equal.
    rewrite powerRZ_add by lra. change (2 ^ 23) with 8388608. change (2 ^ 24) with 16777216.
    simpl powerRZ. lra.
Qed.

(** Nothing is rounded away when nothing is shifted out. *)
Lemma located_1 (X : Z) (rec : shr_record) : located X 1 rec → rne rec = X.
Proof.
  intros [Hm (lo & HX & Hlo & Hc)]. destruct rec as [m r s]. unfold rne. simpl in *.
  destruct r, s; simpl; lia.
Qed.

(** An integer [M] with [(2M - 1)^2 <= 4x < (2M + 1)^2] is within one half
    of the square root of [x]. *)
Lemma sqrt_near (M x : Z) :
  0 < x → 0 < M → (2 * M - 1) ^ 2 ≤ 4 * x < (2 * M + 1) ^ 2 →
  (Rabs (IZR M - sqrt (IZR x)) <= / 2)%R.
Proof.
  intros Hx HM [Hlo Hhi].
  assert (H1 : (IZR (2 * M - 1) <= 2 * sqrt (IZR x))%R).
  { rewrite <- (sqrt_square (IZR (2 * M - 1))) by (apply IZR_le; lia).
    replace (2 * sqrt (IZR x))%R with (sqrt (IZR (4 * x))).
    - apply sqrt_le_1_alt. rewrite <- mult_IZR. apply IZR_le. lia.
    - rewrite mult_IZR. rewrite sqrt_mult by (try apply IZR_le; lra || lia).
      replace 4%R with (2 * 2)%R by lra. rewrite sqrt_square by lra. reflexivity. }
  assert (H2 : (2 * sqrt (IZR x) <= IZR (2 * M + 1))%R).
  { rewrite <- (sqrt_square (IZR (2 * M + 1))) by (apply IZR_le; lia).
    replace (2 * sqrt (IZR x))%R with (sqrt (IZR (4 * x))).
    - apply sqrt_le_1_alt. rewrite <- mult_IZR. apply IZR_le. lia.
    - rewrite mult_IZR. rewrite sqrt_mult by (try apply IZR_le; lra || lia).
      replace 4%R with (2 * 2)%R by lra. rewrite sqrt_square by lra. reflexivity. }
  rewrite minus_IZR, mult_IZR in H1. rewrite plus_IZR, mult_IZR in H2.
  apply Rabs_le. lra.
Qed.

Lemma IZR_pow2 (n : Z) : 0 ≤ n → IZR (2 ^ n) = powerRZ 2 n.
Proof.
  intros Hn. destruct n as [|p|p]; [reflexivity| |lia].
  exact (Zpower_pos_powerRZ 2 p).
Qed.

(** Up to depth [2^24] the cast is exact, and the binary32 score is the
    square root of the depth up to a relative error of [2^-24], half a unit
    in the last place. *)
Lemma float32_score_accurate (d : Z) :
  0 ≤ d < 2 ^ 24 →
  ∃ v : R,
    float32_real (float32_score_of_depth d) = Some v
    ∧ (Rabs (v - sqrt (IZR d)) <= sqrt (IZR d) / 2 ^ 24)%R.
Proof.
  intros Hd. destruct (Z.eq_dec d 0) as [->|Hpos].
  { exists 0%R. split; [reflexivity|].
    rewrite sqrt_0. rewrite Rminus_0_r, Rabs_R0. lra. }
  destruct (to_float32_spec d) as (k & X & P & rec & Hk & Hk31 & HX & HP & Hloc & Hb & Hc);
    [lia|].
  assert (Hk24 : k ≤ 24).
  { assert (2 ^ (k - 1) < 2 ^ 24) as Hp by lia.
    apply Z.pow_lt_mono_r_iff in Hp; lia. }
  replace (Z.max 0 (k - 24)) with 0 in HP by lia.
  replace (Z.max 0 (24 - k)) with (24 - k) in HX by lia.
  change (2 ^ 0) with 1 in HP. subst P.
  rewrite (located_1 X rec Hloc) in Hb, Hc.
  assert (HX24 : X < 2 ^ 24).
  { assert (2 ^ k * 2 ^ (24 - k) = 2 ^ 24)
      by (rewrite <- Z.pow_add_r by lia; f_equal; lia).
    assert (0 < 2 ^ (24 - k)) by (apply Z.pow_pos_nonneg; lia). nia. }
  unfold float32_score_of_depth. rewrite Hc.
  unfold pack at 1. destruct (Z.ltb_spec X (2 ^ 24)) as [_|]; [|lia].
  destruct (SFsqrt_spec (Z.to_pos X) (k - 24)) as (E' & s & HE' & Hs & Hcase & ->);
    [rewrite Z2Pos.id by lia; lia|lia|].
  rewrite Z2Pos.id by lia.
  set (x := X * 2 ^ s) in *.
  assert (Hx : 2 ^ 46 ≤ x < 2 ^ 48) by (subst x; destruct Hcase as [-> | ->]; lia).
  destruct (rsqrt_bounds x Hx) as [_ HM].
  rewrite (float32_real_pack _ _ HM). eexists. split; [reflexivity|].
  (* with [N = 2 ^ -E'], [x = d * N * N] *)
  pose proof (Z.div2_odd (25 + (k - 24))) as Hdiv.
  assert (HE'neg : E' ≤ -12) by (destruct (Z.odd _); simpl in Hdiv; lia).
  set (N := 2 ^ (- E')).
  assert (HN : 0 < N) by (apply Z.pow_pos_nonneg; lia).
  assert (HxN : x = d * (N * N)).
  { subst x N. rewrite HX. rewrite <- !Z.pow_add_r by lia.
    rewrite <- Z.mul_assoc, <- Z.pow_add_r by lia. do 2 f_equal. lia. }
  assert (HpE : powerRZ 2 E' = (/ IZR N)%R).
  { subst N. rewrite IZR_pow2 by lia. rewrite powerRZ_neg'.
    rewrite Rinv_inv. reflexivity. }
  rewrite HpE.
  assert (HNR : (0 < IZR N)%R) by (apply (IZR_lt 0); lia).
  assert (Hsx : sqrt (IZR x) = (sqrt (IZR d) * IZR N)%R).
  { rewrite HxN, !mult_IZR. rewrite sqrt_mult.
    - rewrite sqrt_square by lra. reflexivity.
    - apply (IZR_le 0). lia.
    - nra. }
  pose proof (sqrt_near (rsqrt x) x ltac:(lia) ltac:(lia) (rsqrt_nearest x ltac:(lia)))
    as Hnear.
  rewrite Hsx in Hnear.
  assert (Hlow : (2 ^ 23 <= sqrt (IZR d) * IZR N)%R).
  { rewrite <- Hsx.
    replace (2 ^ 23)%R with (sqrt (IZR (2 ^ 46))).
    - apply sqrt_le_1_alt. apply IZR_le. lia.
    - change (2 ^ 46) with (2 ^ 23 * 2 ^ 23). rewrite mult_IZR.
      rewrite sqrt_square by (apply (IZR_le 0); lia).
      change (2 ^ 23) with 8388608. lra. }
  replace (IZR (rsqrt x) * / IZR N - sqrt (IZR d))%R
    with ((IZR (rsqrt x) - sqrt (IZR d) * IZR N) * / IZR N)%R
    by (field; lra).
  rewrite Rabs_mult, (Rabs_pos_eq (/ IZR N)) by (left; now apply Rinv_0_lt_compat).
  apply Rle_trans with (/ 2 * / IZR N)%R.
  - apply Rmult_le_compat_r; [left; now apply Rinv_0_lt_compat|exact Hnear].
  - apply Rmult_le_reg_r with (IZR N); [exact HNR|].
    replace (/ 2 * / IZR N * IZR N)%R with (/ 2)%R by (field; lra).
    lra.
Qed.

(** ** The complexity scorer *)

Section Scorer.

Import _SimpleDNNBuilder.

Variable self : _SimpleDNNBuilder.t.

Lemma measure_complexity_run :
  _measure_complexity self
  = (Return (tf.sqrt (tf.to_float (tf.constant (_num_layers self)))), self).
Proof. reflexivity. Qed.

Lemma measure_complexity_read_only : read_only _measure_complexity.
Proof. unfold _measure_complexity. read_only. Qed.

Lemma score_nonneg_depth :
  0 ≤ _num_layers self → score self = Some (R_sqrt.sqrt (IZR (_num_layers self))).
Proof.
  intros Hd. unfold score, result. rewrite measure_complexity_run. simpl.
  destruct (Rle_dec 0 (IZR (_num_layers self))) as [_|Hneg]; [reflexivity|].
  exfalso. apply Hneg. now apply (IZR_le 0).
Qed.

(** Below depth 0 the square root has no value (the graph computes a NaN). *)
Lemma score_negative_depth : _num_layers self < 0 → score self = None.
Proof.
  intros Hd. unfold score, result. rewrite measure_complexity_run. simpl.
  destruct (Rle_dec 0 (IZR (_num_layers self))) as [Hpos|_]; [|reflexivity].
  apply le_IZR in Hpos. lia.
Qed.

Lemma score_float32_run :
  score_float32 self
  = if (tf.int32_min <=? _num_layers self) && (_num_layers self <=? tf.int32_max)
    then Some (tf.float32
                 (SFsqrt tf.prec tf.emax
                    (binary_normalize tf.prec tf.emax (_num_layers self) 0 false)))
    else None.
Proof.
  unfold score_float32, result. rewrite measure_complexity_run. simpl.
  now destruct (_ && _).
Qed.

Lemma score_float32_of_depth :
  0 ≤ _num_layers self ≤ tf.int32_max →
  score_float32 self = Some (tf.float32 (float32_score_of_depth (_num_layers self))).
Proof.
  intros Hd. rewrite score_float32_run.
  destruct (Z.leb_spec tf.int32_min (_num_layers self)) as [_|Hlt];
    [|unfold tf.int32_min in Hlt; lia].
  destruct (Z.leb_spec (_num_layers self) tf.int32_max); [reflexivity|lia].
Qed.

End Scorer.

Lemma sqrt_4 : R_sqrt.sqrt 4 = 2%R.
Proof.
  replace 4%R with (2 * 2)%R by lra. apply sqrt_square. lra.
Qed.

(** C3: for a builder made with a depth [d >= 0], [_measure_complexity]
    returns the square root of [d]: the real value of the term it returns is
    [sqrt d], and the binary32 number the graph computes for it is [sqrt d]
    rounded (for [d < 2^24], within a relative [2^-24]); the score of depth 0
    is 0, of depth 1 is 1 and of depth 4 is 2, exactly so in binary32 too;
    and the call leaves the builder as it was. *)
Theorem measure_complexity_sqrt (b : _SimpleDNNBuilder.t) :
  0 ≤ _SimpleDNNBuilder._num_layers b →
  score b = Some (R_sqrt.sqrt (IZR (_SimpleDNNBuilder._num_layers b)))
  ∧ (_SimpleDNNBuilder._num_layers b < 2 ^ 24 →
     ∃ (x : spec_float) (v : R),
       score_float32 b = Some (tf.float32 x)
       ∧ float32_real x = Some v
       ∧ (Rabs (v - R_sqrt.sqrt (IZR (_SimpleDNNBuilder._num_layers b)))
          <= R_sqrt.sqrt (IZR (_SimpleDNNBuilder._num_layers b)) / 2 ^ 24)%R)
  ∧ (_SimpleDNNBuilder._num_layers b = 0 →
       score b = Some 0%R ∧ score_float32 b = Some (tf.float32 float32_zero))
  ∧ (_SimpleDNNBuilder._num_layers b = 1 →
       score b = Some 1%R ∧ score_float32 b = Some (tf.float32 float32_one))
  ∧ (_SimpleDNNBuilder._num_layers b = 4 →
       score b = Some 2%R ∧ score_float32 b = Some (tf.float32 float32_two))
  ∧ after _SimpleDNNBuilder._measure_complexity b = b.
Proof.
  intros Hd. pose proof (score_nonneg_depth b Hd) as Hs.
  split_and!.
  - exact Hs.
  - intros Hlt.
    destruct (float32_score_accurate (_SimpleDNNBuilder._num_layers b))
      as (v & Hv & Hacc); [lia|].
    exists (float32_score_of_depth (_SimpleDNNBuilder._num_layers b)), v.
    split_and!; [|exact Hv|exact Hacc].
    apply score_float32_of_depth. unfold tf.int32_max. lia.
  - intros E. rewrite Hs, score_float32_run, E. now rewrite sqrt_0.
  - intros E. rewrite Hs, score_float32_run, E. now rewrite sqrt_1.
  - intros E. rewrite Hs, score_float32_run, E. now rewrite sqrt_4.
  - apply measure_complexity_read_only.
Qed.

Lemma measure_complexity_sqrt_witness :
  score (notebook_builder 4) = Some 2%R
  ∧ score_float32 (notebook_builder 4) = Some (tf.float32 float32_two).
Proof.
  assert (H : 0 ≤ _SimpleDNNBuilder._num_layers (notebook_builder 4))
    by (simpl; lia).
  destruct (measure_complexity_sqrt (notebook_builder 4) H)
    as (_ & _ & _ & _ & Hfour & _).
  apply Hfour. reflexivity.
Defined.

(** C4: the scorer is monotonically non-decreasing in the depth: for depths
    [0 <= d1 < d2] both scores are defined and the score of [d1] is at most
    the score of [d2].  This holds of the real-valued scores and, for every
    depth an int32 holds, of the binary32 numbers the graph computes. *)
Theorem measure_complexity_monotone (b1 b2 : _SimpleDNNBuilder.t) :
  0 ≤ _SimpleDNNBuilder._num_layers b1 →
  _SimpleDNNBuilder._num_layers b1 < _SimpleDNNBuilder._num_layers b2 →
  (∃ s1 s2 : R, score b1 = Some s1 ∧ score b2 = Some s2 ∧ (s1 <= s2)%R)
  ∧ (_SimpleDNNBuilder._num_layers b2 ≤ tf.int32_max →
     ∃ x1 x2 : spec_float,
       score_float32 b1 = Some (tf.float32 x1)
       ∧ score_float32 b2 = Some (tf.float32 x2)
       ∧ SFleb x1 x2 = true).
Proof.
  intros H1 H12. split.
  - exists (R_sqrt.sqrt (IZR (_SimpleDNNBuilder._num_layers b1))),
           (R_sqrt.sqrt (IZR (_SimpleDNNBuilder._num_layers b2))).
    split; [apply score_nonneg_depth; lia|].
    split; [apply score_nonneg_depth; lia|].
    apply sqrt_le_1_alt. apply IZR_le. lia.
  - intros H2.
    exists (float32_score_of_depth (_SimpleDNNBuilder._num_layers b1)),
           (float32_score_of_depth (_SimpleDNNBuilder._num_layers b2)).
    split; [apply score_float32_of_depth; lia|].
    split; [apply score_float32_of_depth; lia|].
    apply float32_score_monotone; unfold tf.int32_max in H2; lia.
Qed.

Lemma measure_complexity_monotone_witness :
  (∃ s1 s2 : R,
     score (notebook_builder 2) = Some s1
     ∧ score (notebook_builder 3) = Some s2 ∧ (s1 <= s2)%R)
  ∧ (∃ x1 x2 : spec_float,
       score_float32 (notebook_builder 2) = Some (tf.float32 x1)
       ∧ score_float32 (notebook_builder 3) = Some (tf.float32 x2)
       ∧ SFleb x1 x2 = true).
Proof.
  assert (H1 : 0 ≤ _SimpleDNNBuilder._num_layers (notebook_builder 2))
    by (simpl; lia).
  assert (H12 : _SimpleDNNBuilder._num_layers (notebook_builder 2)
                < _SimpleDNNBuilder._num_layers (notebook_builder 3))
    by (simpl; lia).
  destruct (measure_complexity_monotone (notebook_builder 2) (notebook_builder 3)
              H1 H12) as [Hreal Hfloat].
  split; [exact Hreal|]. apply Hfloat. vm_compute. discriminate.
Defined.

(** The binary32 scores of the first depths, as mantissa and exponent:
    [sqrt 2] is [11863283 * 2^-23], about 1.41421354. *)
Example float32_scores_of_the_notebook :
  float32_score_of_depth <$> [0; 1; 2; 3; 4; 5]
  = [ S754_zero false;
      S754_finite false 8388608 (-23);
      S754_finite false 11863283 (-23);
      S754_finite false 14529495 (-23);
      S754_finite false 8388608 (-22);
      S754_finite false 9378749 (-22) ].
Proof. vm_compute. reflexivity. Qed.

(** ** The name of a candidate *)

(** A decimal numeral starts with a digit or a minus sign, never with the
    [l] of ["linear"]. *)
Lemma str_not_linear (n : Z) (suffix : string) : str n +:+ suffix ≠ "linear".
Proof.
  unfold str. destruct (Z.to_int n) as [u|u]; simpl; [|discriminate].
  destruct u; simpl; discriminate.
Qed.

Lemma str_inj (m n : Z) : str m = str n → m = n.
Proof.
  assert (proper : ∀ z, Z.to_int z ≠ Pos Nil ∧ Z.to_int z ≠ Neg Nil).
  { intros [|p|p]; simpl; split; try discriminate;
      intros [= E]; now apply DecimalPos.Unsigned.to_uint_nonnil in E. }
  unfold str. intros E. apply DecimalZ.to_int_inj.
  apply (f_equal NilZero.int_of_string) in E.
  rewrite !NilZero.isi in E by apply proper. now injection E.
Qed.

Lemma length_append (s1 s2 : string) :
  String.length (s1 +:+ s2) = (String.length s1 + String.length s2)%nat.
Proof. induction s1 as [|c s1 IH]; simpl; [reflexivity|]. now rewrite IH. Qed.

Lemma append_suffix_inj (s1 s2 suffix : string) :
  s1 +:+ suffix = s2 +:+ suffix → s1 = s2.
Proof.
  assert (longer : ∀ (c : ascii) s, suffix ≠ String c s +:+ suffix).
  { intros c s E. apply (f_equal String.length) in E.
    simpl in E. rewrite length_append in E. lia. }
  revert s2. induction s1 as [|c1 s1 IH]; intros [|c2 s2] E.
  - reflexivity.
  - now apply longer in E.
  - symmetry in E. now apply longer in E.
  - injection E as -> E. f_equal. now apply IH.
Qed.

Section Name.

Import _SimpleDNNBuilder.

Variable self : _SimpleDNNBuilder.t.

Lemma name_run :
  name self
  = (Return (if _num_layers self =? 0 then "linear"
             else str (_num_layers self) +:+ "_layer_dnn"), self).
Proof. unfold name. rewrite run_attr. now destruct (_ =? _). Qed.

Lemma name_linear_iff : result name self = Return "linear" ↔ _num_layers self = 0.
Proof.
  unfold result. rewrite name_run. simpl.
  destruct (Z.eqb_spec (_num_layers self) 0) as [E|NE]; split; intros H.
  - exact E.
  - reflexivity.
  - injection H as H. now apply str_not_linear in H.
  - contradiction.
Qed.

Lemma name_layer_dnn :
  _num_layers self ≠ 0 →
  result name self = Return (str (_num_layers self) +:+ "_layer_dnn").
Proof.
  intros NE. unfold result. rewrite name_run. simpl.
  now destruct (Z.eqb_spec (_num_layers self) 0).
Qed.

End Name.

(** Candidates of different depths are told apart by their names. *)
Lemma name_inj (b1 b2 : _SimpleDNNBuilder.t) :
  result _SimpleDNNBuilder.name b1 = result _SimpleDNNBuilder.name b2 →
  _SimpleDNNBuilder._num_layers b1 = _SimpleDNNBuilder._num_layers b2.
Proof.
  unfold result. rewrite !name_run. simpl.
  destruct (Z.eqb_spec (_SimpleDNNBuilder._num_layers b1) 0) as [E1|N1],
           (Z.eqb_spec (_SimpleDNNBuilder._num_layers b2) 0) as [E2|N2];
    intros E.
  - congruence.
  - injection E as E. symmetry in E. now apply str_not_linear in E.
  - injection E as E. now apply str_not_linear in E.
  - injection E as E. apply str_inj. now apply append_suffix_inj in E.
Qed.

(** C5: the [name] of a candidate is ["linear"] exactly when its depth is 0,
    and for a depth [n > 0] it is the decimal numeral of [n] followed by
    ["_layer_dnn"]. *)
Theorem name_of_depth (b : _SimpleDNNBuilder.t) :
  (result _SimpleDNNBuilder.name b = Return "linear"
     ↔ _SimpleDNNBuilder._num_layers b = 0)
  ∧ (0 < _SimpleDNNBuilder._num_layers b →
       result _SimpleDNNBuilder.name b
       = Return (str (_SimpleDNNBuilder._num_layers b) +:+ "_layer_dnn")).
Proof.
  split.
  - apply name_linear_iff.
  - intros Hpos. apply name_layer_dnn. lia.
Qed.

Lemma name_of_depth_witness :
  result _SimpleDNNBuilder.name (notebook_builder 12) = Return "12_layer_dnn".
Proof.
  apply (proj2 (name_of_depth (notebook_builder 12))). simpl. lia.
Defined.

(** The names the notebook prints for its ensembles. *)
Example names_of_the_notebook :
  (λ d, result _SimpleDNNBuilder.name (notebook_builder d)) <$> [0; 1; 2; 3; 4; 5]
  = Return <$> ["linear"; "1_layer_dnn"; "2_layer_dnn"; "3_layer_dnn";
                "4_layer_dnn"; "5_layer_dnn"].
Proof. reflexivity. Qed.

(** ** The train op of the mixture weights *)

(** C9: [build_mixture_weights_train_op] returns a no-op exactly when the
    builder's [learn_mixture_weights] flag is [False], and the optimizer's
    minimize step on the loss and variables it is given exactly when the flag
    is [True]. *)
Theorem build_mixture_weights_train_op_flag
    (b : _SimpleDNNBuilder.t) (loss : tf.Tensor) (var_list : list string)
    (logits labels iteration_step : tf.Tensor) (summary : adanet.Summary) :
  let train_op :=
    result (_SimpleDNNBuilder.build_mixture_weights_train_op
              loss var_list logits labels iteration_step summary) b in
  (train_op = Return tf.no_op
     ↔ _SimpleDNNBuilder._learn_mixture_weights b = false)
  ∧ (train_op = Return (tf.minimize (_SimpleDNNBuilder._optimizer b) loss var_list)
     ↔ _SimpleDNNBuilder._learn_mixture_weights b = true).
Proof.
  unfold result, _SimpleDNNBuilder.build_mixture_weights_train_op.
  rewrite run_attr.
  destruct (_SimpleDNNBuilder._learn_mixture_weights b); simpl;
    repeat split; intros H; try reflexivity; discriminate H.
Qed.

(** ** Building the subnetwork *)

Section BuildSubnetwork.

Import _SimpleDNNBuilder.

Variable self : _SimpleDNNBuilder.t.
Variable features : gmap string tf.Tensor.
Variable logits_dimension : Z.
Variable training : bool.
Variable iteration_step : tf.Tensor.
Variable summary : adanet.Summary.
Variable previous_ensemble : option adanet.Ensemble.

Lemma for_in_stacks {A} (xs : list A) (below : tf.Tensor) :
  for_in xs
    (λ _ last_layer,
       layer_size ← attr _layer_size;
       mret (tf.dense last_layer layer_size (Some tf.relu) (kernel_initializer self)))
    below self
  = (Return (stacked self xs below), self).
Proof.
  revert below. induction xs as [|x xs IH]; intros below; [reflexivity|].
  cbn [for_in]. change (py.bind ?f ?m) with (m ≫= f).
  rewrite run_bind, run_attr. cbn. apply IH.
Qed.

Lemma layers_stacked {A} (xs : list A) (below : tf.Tensor) :
  tf.layers (stacked self xs below)
  = tf.layers below ++ replicate (length xs) (hidden_layer self).
Proof.
  revert below. induction xs as [|x xs IH]; intros below; simpl.
  - now rewrite app_nil_r.
  - unfold stacked in *. rewrite IH. simpl. now rewrite <- app_assoc.
Qed.

Lemma network_input_stacked {A} (xs : list A) (below : tf.Tensor) :
  tf.network_input (stacked self xs below) = tf.network_input below.
Proof.
  revert below. induction xs as [|x xs IH]; intros below; simpl; [reflexivity|].
  unfold stacked in *. now rewrite IH.
Qed.

Lemma build_subnetwork_run (x : tf.Tensor) :
  features !! FEATURES_KEY = Some x →
  build_subnetwork features logits_dimension training iteration_step summary
    previous_ensemble self
  = (Return
       {| adanet.last_layer := stacked self (range (_num_layers self)) (tf.to_float x);
          adanet.logits :=
            tf.dense (stacked self (range (_num_layers self)) (tf.to_float x))
              logits_dimension None (kernel_initializer self);
          adanet.complexity :=
            tf.sqrt (tf.to_float (tf.constant (_num_layers self)));
          adanet.persisted_tensors :=
            {[ _NUM_LAYERS_KEY := tf.constant (_num_layers self) ]} |},
     self).
Proof.
  intros Hx. unfold build_subnetwork.
  rewrite run_bind, (getitem_Some _ _ _ _ Hx).
  rewrite run_attr, run_attr, run_bind.
  fold (kernel_initializer self). rewrite for_in_stacks.
  reflexivity.
Qed.

Lemma build_subnetwork_no_features :
  features !! FEATURES_KEY = None →
  result (build_subnetwork features logits_dimension training iteration_step
            summary previous_ensemble) self
  = Raise KeyError.
Proof.
  intros Hx. unfold result, build_subnetwork.
  now rewrite run_bind, (getitem_None _ _ _ Hx).
Qed.

(** What a builder persists is what the generator reads a round later. *)
Lemma built_subnetwork_previous_depth sn earlier :
  result (build_subnetwork features logits_dimension training iteration_step
            summary previous_ensemble) self
  = Return sn →
  previous_depth
    {| adanet.weighted_subnetworks := earlier ++ [{| adanet.subnetwork := sn |}] |}
    (_num_layers self).
Proof.
  destruct (features !! FEATURES_KEY) as [x|] eqn:Hx.
  - unfold result. rewrite (build_subnetwork_run x Hx). intros [= <-].
    constructor. cbn [adanet.subnetwork adanet.persisted_tensors].
    apply lookup_singleton_eq.
  - rewrite (build_subnetwork_no_features Hx). discriminate.
Qed.

End BuildSubnetwork.



Lemma build_subnetwork_read_only
    (features : gmap string tf.Tensor) (logits_dimension : Z) (training : bool)
    (iteration_step : tf.Tensor) (summary : adanet.Summary)
    (previous_ensemble : option adanet.Ensemble) :
  read_only (_SimpleDNNBuilder.build_subnetwork features logits_dimension
               training iteration_step summary previous_ensemble).
Proof.
  unfold _SimpleDNNBuilder.build_subnetwork,
    _SimpleDNNBuilder._measure_complexity.
  read_only.
Qed.

(** ** One round after the other *)

(** X4: what a builder persists is what the generator reads back: when the
    engine adds the subnetwork a builder built, to whatever ensemble, the
    generator's next proposals are that builder's depth and one more. *)
Lemma next_round_depths
    (g : SimpleDNNGenerator.t) (b : _SimpleDNNBuilder.t)
    (features : gmap string tf.Tensor) (logits_dimension : Z) (training : bool)
    (iteration_step : tf.Tensor) (summary : adanet.Summary)
    (previous_ensemble : option adanet.Ensemble) (sn : adanet.Subnetwork)
    (earlier : list adanet.WeightedSubnetwork) (iteration_number : Z)
    (previous_ensemble_reports all_reports : list adanet.MaterializedReport) :
  result (_SimpleDNNBuilder.build_subnetwork features logits_dimension
            training iteration_step summary previous_ensemble) b
  = Return sn →
  depths <$>
    result (SimpleDNNGenerator.generate_candidates
              (Some {| adanet.weighted_subnetworks :=
                         earlier ++ [{| adanet.subnetwork := sn |}] |})
              iteration_number previous_ensemble_reports all_reports) g
  = Return [_SimpleDNNBuilder._num_layers b; _SimpleDNNBuilder._num_layers b + 1].
Proof.
  intros Hsn.
  apply (built_subnetwork_previous_depth _ _ _ _ _ _ _ _ earlier) in Hsn.
  unfold result.
  now rewrite (generate_candidates_later_round _ _ _ _ _ _ Hsn).
Qed.

Lemma next_round_depths_witness :
  depths <$>
    result (SimpleDNNGenerator.generate_candidates
              (Some {| adanet.weighted_subnetworks :=
                         [member 0]
                         ++ [{| adanet.subnetwork := built None (notebook_builder 2) |}] |})
              1 [] []) (notebook_generator false)
  = Return [_SimpleDNNBuilder._num_layers (notebook_builder 2);
            _SimpleDNNBuilder._num_layers (notebook_builder 2) + 1].
Proof.
  apply (next_round_depths (notebook_generator false) (notebook_builder 2)
           notebook_features 1 true (tf.placeholder "iteration_step")
           (adanet.summary_scope "adanet") None
           (built None (notebook_builder 2)) [member 0] 1 [] []).
  reflexivity.
Defined.

(** ** Both policies are pure *)

(** C6: the shape policy and the complexity scorer are deterministic and
    stateless: a second call of [generate_candidates] (or of
    [_measure_complexity]) with the same arguments, made on the object as the
    first call left it, gives the same result, and neither call changes the
    generator (or the builder). *)
Theorem policies_deterministic_and_stateless :
  (∀ (g : SimpleDNNGenerator.t) (previous_ensemble : option adanet.Ensemble)
     (iteration_number : Z)
     (previous_ensemble_reports all_reports : list adanet.MaterializedReport),
     let call :=
       SimpleDNNGenerator.generate_candidates previous_ensemble iteration_number
         previous_ensemble_reports all_reports in
     result call (after call g) = result call g
     ∧ after call g = g
     ∧ after call (after call g) = g)
  ∧ (∀ b : _SimpleDNNBuilder.t,
       let call := _SimpleDNNBuilder._measure_complexity in
       result call (after call b) = result call b
       ∧ after call b = b
       ∧ after call (after call b) = b).
Proof.
  split.
  - intros g previous_ensemble iteration_number reports all_reports call.
    pose proof (generate_candidates_read_only iteration_number reports
                  all_reports previous_ensemble) as Hro.
    fold call in Hro. now rewrite !(Hro g).
  - intros b call.
    pose proof measure_complexity_read_only as Hro.
    fold call in Hro. now rewrite !(Hro b).
Qed.

(** * Further properties *)

(** X1: every candidate [generate_candidates] returns is the builder made of
    the optimizer, the layer size and the [learn_mixture_weights] flag the
    generator was made with, of the seed of the round, and of a depth of its
    own; so the candidates of a call differ in their depth only: each is the
    other with the depth replaced. *)
Theorem candidates_inherit_configuration
    (g : SimpleDNNGenerator.t) (previous_ensemble : option adanet.Ensemble)
    (iteration_number : Z)
    (previous_ensemble_reports all_reports : list adanet.MaterializedReport)
    (candidates : list _SimpleDNNBuilder.t) (b b' : _SimpleDNNBuilder.t) :
  result (SimpleDNNGenerator.generate_candidates previous_ensemble
            iteration_number previous_ensemble_reports all_reports) g
  = Return candidates →
  b ∈ candidates →
  b' ∈ candidates →
  b = _SimpleDNNBuilder.__init__
        (SimpleDNNGenerator.optimizer (SimpleDNNGenerator._dnn_builder_fn g))
        (SimpleDNNGenerator.layer_size (SimpleDNNGenerator._dnn_builder_fn g))
        (_SimpleDNNBuilder._num_layers b)
        (SimpleDNNGenerator.learn_mixture_weights
           (SimpleDNNGenerator._dnn_builder_fn g))
        (match SimpleDNNGenerator._seed g with
         | None => None
         | Some base_seed => Some (base_seed + iteration_number)
         end)
  ∧ b' = _SimpleDNNBuilder.__init__
           (_SimpleDNNBuilder._optimizer b) (_SimpleDNNBuilder._layer_size b)
           (_SimpleDNNBuilder._num_layers b')
           (_SimpleDNNBuilder._learn_mixture_weights b)
           (_SimpleDNNBuilder._seed b).
Proof.
  intros Hret Hb Hb'.
  destruct (generate_candidates_returns _ _ _ _ _ _ Hret) as (d & -> & _).
  assert (Hcases : ∀ c,
    c ∈ [ SimpleDNNGenerator.call (SimpleDNNGenerator._dnn_builder_fn g) d
            (round_seed g iteration_number);
          SimpleDNNGenerator.call (SimpleDNNGenerator._dnn_builder_fn g) (d + 1)
            (round_seed g iteration_number) ] →
    c = SimpleDNNGenerator.call (SimpleDNNGenerator._dnn_builder_fn g) d
          (round_seed g iteration_number)
    ∨ c = SimpleDNNGenerator.call (SimpleDNNGenerator._dnn_builder_fn g) (d + 1)
          (round_seed g iteration_number)).
  { intros c Hc. apply elem_of_cons in Hc as [->|Hc]; [now left|].
    apply elem_of_cons in Hc as [->|Hc]; [now right|].
    now apply elem_of_nil in Hc. }
  destruct (Hcases b Hb) as [-> | ->], (Hcases b' Hb') as [-> | ->];
    split; reflexivity.
Qed.

Lemma candidates_inherit_configuration_witness :
  _SimpleDNNBuilder.__init__ notebook_optimizer 32 3 true (Some 47)
  = _SimpleDNNBuilder.__init__ notebook_optimizer 32 3 true (Some (42 + 5))
  ∧ _SimpleDNNBuilder.__init__ notebook_optimizer 32 2 true (Some 47)
    = _SimpleDNNBuilder.__init__ notebook_optimizer 32 2 true (Some 47).
Proof.
  apply (candidates_inherit_configuration (notebook_generator true)
           (Some (ensemble [1; 2])) 5 [] []
           [ _SimpleDNNBuilder.__init__ notebook_optimizer 32 2 true (Some 47);
             _SimpleDNNBuilder.__init__ notebook_optimizer 32 3 true (Some 47) ]
           (_SimpleDNNBuilder.__init__ notebook_optimizer 32 3 true (Some 47))
           (_SimpleDNNBuilder.__init__ notebook_optimizer 32 2 true (Some 47))).
  - reflexivity.
  - apply list_elem_of_further, list_elem_of_here.
  - apply list_elem_of_here.
Defined.

(** X3: on a previous ensemble, [generate_candidates] raises [IndexError]
    exactly when the ensemble has no member and [KeyError] exactly when the
    latest member persisted nothing under [_NUM_LAYERS_KEY]; it raises
    [TypeError] when what the latest member persisted there is a tensor
    whose value [constant_value] does not know before the graph runs (a fed
    tensor, a layer, a square root), and only the latest member is looked
    at. *)
Theorem generate_candidates_raises
    (g : SimpleDNNGenerator.t) (e : adanet.Ensemble) (iteration_number : Z)
    (previous_ensemble_reports all_reports : list adanet.MaterializedReport) :
  let outcome :=
    result (SimpleDNNGenerator.generate_candidates (Some e) iteration_number
              previous_ensemble_reports all_reports) g in
  (outcome = Raise IndexError ↔ adanet.weighted_subnetworks e = [])
  ∧ (outcome = Raise KeyError ↔
     ∃ latest, last (adanet.weighted_subnetworks e) = Some latest
               ∧ adanet.persisted_tensors (adanet.subnetwork latest)
                   !! _NUM_LAYERS_KEY = None)
  ∧ (∀ latest tensor,
       last (adanet.weighted_subnetworks e) = Some latest →
       adanet.persisted_tensors (adanet.subnetwork latest) !! _NUM_LAYERS_KEY
         = Some tensor →
       tf.statically_known tensor = false →
       outcome = Raise TypeError).
Proof.
  cbv zeta. rewrite generate_candidates_cases.
  destruct (last (adanet.weighted_subnetworks e)) as [latest|] eqn:Hlast.
  - assert (Hne : adanet.weighted_subnetworks e ≠ [])
      by (intros E; rewrite E in Hlast; discriminate).
    destruct (adanet.persisted_tensors (adanet.subnetwork latest) !! _NUM_LAYERS_KEY)
      as [tensor|] eqn:Hkey.
    + assert (Hkeyed : ¬ ∃ l, Some latest = Some l
                ∧ adanet.persisted_tensors (adanet.subnetwork l) !! _NUM_LAYERS_KEY
                  = None)
        by (intros (l & [= <-] & Hk); congruence).
      destruct (tf.constant_value tensor) as [d|] eqn:Hconst.
      * split_and!.
        -- split; [discriminate|contradiction].
        -- split; [discriminate|contradiction].
        -- intros l t [= <-] Hk Hknown. rewrite Hkey in Hk. injection Hk as <-.
           destruct tensor; discriminate.
      * split_and!.
        -- split; [discriminate|contradiction].
        -- split; [discriminate|contradiction].
        -- reflexivity.
    + split_and!.
      * split; [discriminate|contradiction].
      * split; [intros _; now exists latest|reflexivity].
      * intros l t [= <-] Hk. congruence.
  - apply last_None in Hlast as Hnil.
    split_and!.
    + split; [intros _; exact Hnil|reflexivity].
    + split; [discriminate|intros (l & [=] & _)].
    + intros l t [=].
Qed.

Lemma generate_candidates_raises_witness :
  result (SimpleDNNGenerator.generate_candidates
            (Some {| adanet.weighted_subnetworks :=
                       [ member 1;
                         {| adanet.subnetwork :=
                              {| adanet.last_layer := tf.placeholder "last_layer";
                                 adanet.logits := tf.placeholder "logits";
                                 adanet.complexity := tf.placeholder "complexity";
                                 adanet.persisted_tensors :=
                                   {[ _NUM_LAYERS_KEY :=
                                        tf.to_float (tf.placeholder "num_layers") ]}
                              |} |} ] |})
            2 [] [])
    (notebook_generator false)
  = Raise TypeError.
Proof.
  apply (proj2 (proj2 (generate_candidates_raises (notebook_generator false)
                         {| adanet.weighted_subnetworks :=
                              [ member 1;
                                {| adanet.subnetwork :=
                                     {| adanet.last_layer := tf.placeholder "last_layer";
                                        adanet.logits := tf.placeholder "logits";
                                        adanet.complexity := tf.placeholder "complexity";
                                        adanet.persisted_tensors :=
                                          {[ _NUM_LAYERS_KEY :=
                                               tf.to_float (tf.placeholder "num_layers") ]}
                                     |} |} ] |}
                         2 [] []))
           {| adanet.subnetwork :=
                {| adanet.last_layer := tf.placeholder "last_layer";
                   adanet.logits := tf.placeholder "logits";
                   adanet.complexity := tf.placeholder "complexity";
                   adanet.persisted_tensors :=
                     {[ _NUM_LAYERS_KEY :=
                          tf.to_float (tf.placeholder "num_layers") ]} |} |}
           (tf.to_float (tf.placeholder "num_layers"))).
  - reflexivity.
  - reflexivity.
  - reflexivity.
Defined.

(** ** Round after round *)

Lemma last_cons_default (d below : Z) (ds : list Z) :
  List.last (d :: ds) below = List.last ds d.
Proof.
  revert d below. induction ds as [|d' ds IH]; intros d below; [reflexivity|].
  change (List.last (d :: d' :: ds) below) with (List.last (d' :: ds) below).
  now rewrite !IH.
Qed.

Lemma climbs_snoc (below x : Z) (ds : list Z) :
  climbs below (ds ++ [x])
  = climbs below ds
    && ((x =? List.last ds below) || (x =? List.last ds below + 1)).
Proof.
  revert below. induction ds as [|d ds IH]; intros below.
  - cbn. now rewrite andb_true_r.
  - change (climbs below ((d :: ds) ++ [x]))
      with (((d =? below) || (d =? below + 1)) && climbs d (ds ++ [x])).
    rewrite IH, last_cons_default. cbn [climbs]. now rewrite andb_assoc.
Qed.

Lemma climbs_last (below : Z) (ds : list Z) :
  climbs below ds = true →
  below ≤ List.last ds below ≤ below + Z.of_nat (length ds).
Proof.
  revert below. induction ds as [|d ds IH]; intros below H.
  - cbn. lia.
  - cbn [climbs] in H. apply andb_true_iff in H as [Hd Hrest].
    specialize (IH d Hrest).
    rewrite last_cons_default. cbn [length].
    apply orb_true_iff in Hd. lia.
Qed.

Lemma persisted_depth_constant (member : adanet.WeightedSubnetwork) (d : Z) :
  persisted_depth member = Some d ↔
  adanet.persisted_tensors (adanet.subnetwork member) !! _NUM_LAYERS_KEY
  = Some (tf.constant d).
Proof.
  unfold persisted_depth.
  destruct (adanet.persisted_tensors (adanet.subnetwork member) !! _NUM_LAYERS_KEY)
    as [tensor|]; split; try discriminate.
  - destruct tensor; try discriminate. now intros [= ->].
  - now intros [= ->].
Qed.

Lemma built_persisted_depth
    (b : _SimpleDNNBuilder.t) (features : gmap string tf.Tensor)
    (logits_dimension : Z) (training : bool) (iteration_step : tf.Tensor)
    (summary : adanet.Summary) (previous_ensemble : option adanet.Ensemble)
    (sn : adanet.Subnetwork) :
  result (_SimpleDNNBuilder.build_subnetwork features logits_dimension
            training iteration_step summary previous_ensemble) b
  = Return sn →
  persisted_depth {| adanet.subnetwork := sn |}
  = Some (_SimpleDNNBuilder._num_layers b).
Proof.
  intros Hsn.
  apply (built_subnetwork_previous_depth _ _ _ _ _ _ _ _ []) in Hsn.
  apply previous_depth_iff in Hsn as (latest & Hlast & Hd).
  cbn in Hlast. injection Hlast as <-.
  now apply persisted_depth_constant.
Qed.

Lemma member_depths_append (previous_ensemble : option adanet.Ensemble)
    (sn : adanet.Subnetwork) :
  member_depths (Some (append_member previous_ensemble sn))
  = member_depths previous_ensemble
    ++ [persisted_depth {| adanet.subnetwork := sn |}].
Proof.
  unfold member_depths, append_member. cbn [adanet.weighted_subnetworks].
  rewrite fmap_app. now destruct previous_ensemble.
Qed.

(** The depth the generator starts from: that of the latest member, or 0. *)
Lemma member_depths_previous_depth (e : adanet.Ensemble) (ds : list Z) (d : Z) :
  member_depths (Some e) = Some <$> ds →
  last ds = Some d →
  previous_depth e d.
Proof.
  intros Hds Hlast. apply previous_depth_iff.
  unfold member_depths in Hds. apply (f_equal last) in Hds. rewrite !fmap_last, Hlast in Hds.
  destruct (last (adanet.weighted_subnetworks e)) as [latest|];
    cbn in Hds; [|discriminate].
  exists latest. split; [reflexivity|].
  apply persisted_depth_constant. congruence.
Qed.

Lemma last_default (ds : list Z) (below : Z) :
  List.last ds below = default below (last ds).
Proof.
  induction ds as [|d ds IH]; [reflexivity|].
  destruct ds as [|d' ds]; [reflexivity|].
  change (List.last (d :: d' :: ds) below) with (List.last (d' :: ds) below).
  rewrite IH. reflexivity.
Qed.

(** What every ensemble the engine can hold looks like. *)
Lemma grown_invariant (g : SimpleDNNGenerator.t) (k : nat)
    (previous_ensemble : option adanet.Ensemble) :
  grown g k previous_ensemble →
  ∃ ds,
    member_depths previous_ensemble = Some <$> ds
    ∧ climbs 0 ds = true
    ∧ (length ds ≤ k)%nat
    ∧ (previous_ensemble = None ↔ ds = []).
Proof.
  induction 1 as [|k prev _ (ds & Hds & Hclimb & Hlen & Hnone)
                  |k prev reports all_reports candidates b features ld training
                     step summary sn _ (ds & Hds & Hclimb & Hlen & Hnone)
                     Hcands Hb Hsn].
  - exists []. split_and!; [reflexivity|reflexivity|cbn; lia|done].
  - exists ds. split_and!; [assumption|assumption|lia|exact Hnone].
  - destruct (generate_candidates_returns _ _ _ _ _ _ Hcands) as (d & -> & Hd).
    assert (Hb' : _SimpleDNNBuilder._num_layers b = d
                  ∨ _SimpleDNNBuilder._num_layers b = d + 1).
    { apply elem_of_cons in Hb as [->|Hb]; [now left|].
      apply elem_of_cons in Hb as [->|Hb]; [now right|].
      now apply elem_of_nil in Hb. }
    assert (Htop : d = List.last ds 0).
    { rewrite last_default. destruct prev as [e|].
      - destruct (last ds) as [top|] eqn:Hlast.
        + pose proof (member_depths_previous_depth e ds top Hds Hlast) as Htop.
          apply previous_depth_iff in Hd as (l1 & Hl1 & Hk1).
          apply previous_depth_iff in Htop as (l2 & Hl2 & Hk2).
          cbn. congruence.
        + apply last_None in Hlast. apply Hnone in Hlast. discriminate.
      - assert (ds = []) as -> by now apply Hnone. exact Hd. }
    exists (ds ++ [_SimpleDNNBuilder._num_layers b]). split_and!.
    + rewrite member_depths_append, Hds, fmap_app.
      now rewrite (built_persisted_depth _ _ _ _ _ _ _ _ Hsn).
    + rewrite climbs_snoc, Hclimb, <- Htop. cbn.
      destruct Hb' as [-> | ->]; rewrite Z.eqb_refl; [reflexivity|].
      now rewrite orb_true_r.
    + rewrite length_app. cbn. lia.
    + split; [discriminate|]. intros E. now destruct ds.
Qed.

(** X5: however the engine chooses among the candidates, the depths of the
    members of the ensemble form a staircase: the first member has depth 0
    or 1, and every later member has the depth of the member added before it
    or one more.  After [k] rounds the ensemble has at most [k] members. *)
Theorem ensemble_depths_climb (g : SimpleDNNGenerator.t) (k : nat)
    (previous_ensemble : option adanet.Ensemble) :
  grown g k previous_ensemble →
  ∃ ds,
    member_depths previous_ensemble = Some <$> ds
    ∧ climbs 0 ds = true
    ∧ (length ds ≤ k)%nat.
Proof.
  intros H. destruct (grown_invariant g k previous_ensemble H)
    as (ds & Hds & Hclimb & Hlen & _).
  now exists ds.
Qed.

(** X6: in every round of every run, [generate_candidates] returns and does
    not raise, whatever round index it is given; the depths it proposes in
    round [k] are [d] and [d + 1] for some [0 <= d <= k]. *)
Theorem generate_candidates_along_a_run (g : SimpleDNNGenerator.t) (k : nat)
    (previous_ensemble : option adanet.Ensemble) (iteration_number : Z)
    (previous_ensemble_reports all_reports : list adanet.MaterializedReport) :
  grown g k previous_ensemble →
  ∃ d,
    0 ≤ d ≤ Z.of_nat k
    ∧ depths <$>
        result (SimpleDNNGenerator.generate_candidates previous_ensemble
                  iteration_number previous_ensemble_reports all_reports) g
      = Return [d; d + 1].
Proof.
  intros H. destruct (grown_invariant g k previous_ensemble H)
    as (ds & Hds & Hclimb & Hlen & Hnone).
  pose proof (climbs_last 0 ds Hclimb) as Hbound.
  rewrite last_default in Hbound.
  destruct previous_ensemble as [e|].
  - destruct (last ds) as [top|] eqn:Hlast.
    + exists top. split; [cbn in Hbound; lia|].
      pose proof (member_depths_previous_depth e ds top Hds Hlast) as Htop.
      unfold result.
      now rewrite (generate_candidates_later_round _ _ _ _ _ _ Htop).
    + apply last_None in Hlast. apply Hnone in Hlast. discriminate.
  - exists 0. split; [lia|]. reflexivity.
Qed.

Lemma built_returns (previous_ensemble : option adanet.Ensemble)
    (b : _SimpleDNNBuilder.t) :
  result (_SimpleDNNBuilder.build_subnetwork notebook_features 1 true
            (tf.placeholder "iteration_step") (adanet.summary_scope "adanet")
            previous_ensemble) b
  = Return (built previous_ensemble b).
Proof.
  unfold built, result.
  now rewrite (build_subnetwork_run b notebook_features 1 true
                 (tf.placeholder "iteration_step") (adanet.summary_scope "adanet")
                 previous_ensemble (tf.placeholder "log1p_x") eq_refl).
Qed.

Lemma grown_candidates (g : SimpleDNNGenerator.t) (k : nat)
    (previous_ensemble : option adanet.Ensemble) (iteration_number : Z)
    (previous_ensemble_reports all_reports : list adanet.MaterializedReport) :
  grown g k previous_ensemble →
  result (SimpleDNNGenerator.generate_candidates previous_ensemble
            iteration_number previous_ensemble_reports all_reports) g
  = Return
      [ SimpleDNNGenerator.call (SimpleDNNGenerator._dnn_builder_fn g)
          (latest_depth previous_ensemble) (round_seed g iteration_number);
        SimpleDNNGenerator.call (SimpleDNNGenerator._dnn_builder_fn g)
          (latest_depth previous_ensemble + 1) (round_seed g iteration_number) ].
Proof.
  intros H. destruct (grown_invariant g k previous_ensemble H)
    as (ds & Hds & Hclimb & Hlen & Hnone).
  unfold latest_depth. rewrite Hds, fmap_last.
  destruct previous_ensemble as [e|].
  - destruct (last ds) as [top|] eqn:Hlast.
    + pose proof (member_depths_previous_depth e ds top Hds Hlast) as Htop.
      unfold result. cbn.
      now rewrite (generate_candidates_later_round _ _ _ _ _ _ Htop).
    + apply last_None in Hlast. apply Hnone in Hlast. discriminate.
  - assert (ds = []) as -> by now apply Hnone. reflexivity.
Qed.

Lemma latest_depth_append (previous_ensemble : option adanet.Ensemble)
    (b : _SimpleDNNBuilder.t) :
  latest_depth (Some (append_member previous_ensemble (built previous_ensemble b)))
  = _SimpleDNNBuilder._num_layers b.
Proof.
  unfold latest_depth. rewrite member_depths_append, last_snoc.
  now rewrite (built_persisted_depth _ _ _ _ _ _ _ _ (built_returns previous_ensemble b)).
Qed.

Lemma run_from_grown (g : SimpleDNNGenerator.t) (ds : list Z) :
  ∀ (k : nat) (previous_ensemble : option adanet.Ensemble),
    grown g k previous_ensemble →
    climbs (latest_depth previous_ensemble) ds = true →
    grown g (k + length ds) (run_from g k previous_ensemble ds).
Proof.
  induction ds as [|d ds IH]; intros k prev Hgrown Hclimb.
  - cbn. now rewrite Nat.add_0_r.
  - cbn [climbs] in Hclimb. apply andb_true_iff in Hclimb as [Hd Hrest].
    cbn [run_from length]. rewrite Nat.add_succ_r.
    change (S (k + length ds)) with (S k + length ds)%nat.
    apply IH.
    + apply (grown_add g k prev [] [] _ (round_builder g k d) notebook_features
               1 true (tf.placeholder "iteration_step")
               (adanet.summary_scope "adanet") _ Hgrown
               (grown_candidates g k prev (Z.of_nat k) [] [] Hgrown)).
      * unfold round_builder. apply orb_true_iff in Hd as [Hd|Hd];
          apply Z.eqb_eq in Hd; subst d.
        -- apply list_elem_of_here.
        -- apply list_elem_of_further, list_elem_of_here.
      * apply built_returns.
    + now rewrite latest_depth_append.
Qed.

Lemma member_depths_run_from (g : SimpleDNNGenerator.t) (ds : list Z) :
  ∀ (k : nat) (previous_ensemble : option adanet.Ensemble),
    member_depths (run_from g k previous_ensemble ds)
    = member_depths previous_ensemble ++ (Some <$> ds).
Proof.
  induction ds as [|d ds IH]; intros k prev; cbn [run_from].
  - cbn. now rewrite app_nil_r.
  - rewrite IH, member_depths_append.
    rewrite (built_persisted_depth _ _ _ _ _ _ _ _
               (built_returns prev (round_builder g k d))).
    cbn. now rewrite <- app_assoc.
Qed.

(** X7: the staircases are all there is and all are there: for every list
    of depths that starts at 0 or 1 and climbs by 0 or 1 from member to
    member, there is a run of the engine whose ensemble has exactly these
    depths. *)
Theorem every_staircase_is_grown (g : SimpleDNNGenerator.t) (ds : list Z) :
  climbs 0 ds = true →
  grown g (length ds) (run_from g 0 None ds)
  ∧ member_depths (run_from g 0 None ds) = Some <$> ds.
Proof.
  intros Hclimb. split.
  - apply (run_from_grown g ds 0 None (grown_start g)). exact Hclimb.
  - now rewrite member_depths_run_from.
Qed.

(** The third run of the notebook: "| linear | 1_layer_dnn | 2_layer_dnn |
    2_layer_dnn | 3_layer_dnn |". *)
Lemma every_staircase_is_grown_witness :
  grown (notebook_generator true) 5
    (run_from (notebook_generator true) 0 None [0; 1; 2; 2; 3])
  ∧ member_depths (run_from (notebook_generator true) 0 None [0; 1; 2; 2; 3])
    = Some <$> [0; 1; 2; 2; 3].
Proof.
  apply (every_staircase_is_grown (notebook_generator true) [0; 1; 2; 2; 3]).
  reflexivity.
Defined.

(** The first run of the notebook, which took the deeper candidate in every
    round. *)
Lemma notebook_first_run :
  grown (notebook_generator false) 5
    (run_from (notebook_generator false) 0 None [1; 2; 3; 4; 5]).
Proof.
  apply (run_from_grown (notebook_generator false) [1; 2; 3; 4; 5] 0 None
           (grown_start _)).
  reflexivity.
Qed.

Lemma ensemble_depths_climb_witness :
  ∃ ds,
    member_depths (run_from (notebook_generator false) 0 None [1; 2; 3; 4; 5])
    = Some <$> ds
    ∧ climbs 0 ds = true
    ∧ (length ds ≤ 5)%nat.
Proof.
  apply (ensemble_depths_climb (notebook_generator false) 5).
  exact notebook_first_run.
Defined.

Lemma generate_candidates_along_a_run_witness :
  ∃ d,
    0 ≤ d ≤ Z.of_nat 5
    ∧ depths <$>
        result (SimpleDNNGenerator.generate_candidates
                  (run_from (notebook_generator false) 0 None [1; 2; 3; 4; 5])
                  5 [] [])
          (notebook_generator false)
      = Return [d; d + 1].
Proof.
  apply (generate_candidates_along_a_run (notebook_generator false) 5).
  exact notebook_first_run.
Defined.

(** ** More on the builder *)



(** X9: the complexity attached to a built subnetwork is the term the
    builder's scorer returns, and its value is the square root of the number
    of hidden layers the subnetwork was actually given. *)
Theorem built_complexity_counts_layers
    (b : _SimpleDNNBuilder.t) (features : gmap string tf.Tensor)
    (logits_dimension : Z) (training : bool) (iteration_step : tf.Tensor)
    (summary : adanet.Summary) (previous_ensemble : option adanet.Ensemble)
    (sn : adanet.Subnetwork) :
  0 ≤ _SimpleDNNBuilder._num_layers b →
  result (_SimpleDNNBuilder.build_subnetwork features logits_dimension
            training iteration_step summary previous_ensemble) b
  = Return sn →
  result _SimpleDNNBuilder._measure_complexity b = Return (adanet.complexity sn)
  ∧ tf.real_value (adanet.complexity sn)
    = Some (sqrt (INR (length (tf.layers (adanet.last_layer sn))))).
Proof.
  intros Hd Hsn.
  destruct (features !! FEATURES_KEY) as [x|] eqn:Hx.
  - unfold result in Hsn.
    rewrite (build_subnetwork_run b features logits_dimension training
               iteration_step summary previous_ensemble x Hx) in Hsn.
    injection Hsn as <-. cbn [adanet.complexity adanet.last_layer].
    split; [reflexivity|].
    rewrite layers_stacked. cbn [tf.layers app].
    rewrite length_replicate. unfold range. rewrite length_seqZ.
    rewrite INR_IZR_INZ, Z2Nat.id by lia.
    pose proof (score_nonneg_depth b Hd) as Hs. exact Hs.
  - rewrite (build_subnetwork_no_features b features logits_dimension training
               iteration_step summary previous_ensemble Hx) in Hsn.
    discriminate.
Qed.

Lemma built_complexity_counts_layers_witness :
  tf.real_value (adanet.complexity (built None (notebook_builder 4)))
  = Some (sqrt (INR (length (tf.layers
                               (adanet.last_layer (built None (notebook_builder 4))))))).
Proof.
  apply (built_complexity_counts_layers (notebook_builder 4) notebook_features 1
           true (tf.placeholder "iteration_step") (adanet.summary_scope "adanet")
           None (built None (notebook_builder 4))).
  - simpl. lia.
  - reflexivity.
Defined.

(** X10: [build_subnetwork] looks up [FEATURES_KEY] before anything else:
    whatever the depth, the widths and the other arguments, it raises
    [KeyError] exactly when the features do not hold the key, and so a call
    that returned was given the key. *)
Theorem build_subnetwork_key_error
    (b : _SimpleDNNBuilder.t) (features : gmap string tf.Tensor)
    (logits_dimension : Z) (training : bool) (iteration_step : tf.Tensor)
    (summary : adanet.Summary) (previous_ensemble : option adanet.Ensemble) :
  let outcome :=
    result (_SimpleDNNBuilder.build_subnetwork features logits_dimension
              training iteration_step summary previous_ensemble) b in
  (outcome = Raise KeyError ↔ features !! FEATURES_KEY = None)
  ∧ ∀ sn, outcome = Return sn →
      ∃ x, features !! FEATURES_KEY = Some x
           ∧ tf.network_input (adanet.logits sn) = tf.to_float x.
Proof.
  cbv zeta. destruct (features !! FEATURES_KEY) as [x|] eqn:Hx.
  - unfold result.
    rewrite (build_subnetwork_run b features logits_dimension training
               iteration_step summary previous_ensemble x Hx).
    cbn [fst]. split.
    + split; discriminate.
    + intros sn [= <-]. exists x. split; [reflexivity|].
      cbn [adanet.logits]. unfold logits_layer. cbn [tf.network_input].
      apply network_input_stacked.
  - rewrite (build_subnetwork_no_features b features logits_dimension training
               iteration_step summary previous_ensemble Hx).
    split.
    + split; reflexivity.
    + discriminate.
Qed.

Lemma build_subnetwork_key_error_witness :
  result (_SimpleDNNBuilder.build_subnetwork
            {[ "y" := tf.placeholder "log1p_y" ]} 1 true
            (tf.placeholder "iteration_step") (adanet.summary_scope "adanet") None)
    (notebook_builder 2)
  = Raise KeyError.
Proof.
  apply (proj2 (proj1 (build_subnetwork_key_error (notebook_builder 2)
                         {[ "y" := tf.placeholder "log1p_y" ]} 1 true
                         (tf.placeholder "iteration_step")
                         (adanet.summary_scope "adanet") None))).
  reflexivity.
Defined.

(** X12: a generator made with [learn_mixture_weights=False] hands out
    only builders whose mixture-weights train op is a no-op, and one made
    with [True] only builders whose op is a minimize step: the flag of the
    generator decides for every candidate of every round. *)
Theorem candidates_learn_mixture_weights
    (g : SimpleDNNGenerator.t) (previous_ensemble : option adanet.Ensemble)
    (iteration_number : Z)
    (previous_ensemble_reports all_reports : list adanet.MaterializedReport)
    (candidates : list _SimpleDNNBuilder.t) (b : _SimpleDNNBuilder.t)
    (loss : tf.Tensor) (var_list : list string)
    (logits labels iteration_step : tf.Tensor) (summary : adanet.Summary) :
  result (SimpleDNNGenerator.generate_candidates previous_ensemble
            iteration_number previous_ensemble_reports all_reports) g
  = Return candidates →
  b ∈ candidates →
  result (_SimpleDNNBuilder.build_mixture_weights_train_op loss var_list
            logits labels iteration_step summary) b
  = if SimpleDNNGenerator.learn_mixture_weights
         (SimpleDNNGenerator._dnn_builder_fn g)
    then Return (tf.minimize
                   (SimpleDNNGenerator.optimizer
                      (SimpleDNNGenerator._dnn_builder_fn g)) loss var_list)
    else Return tf.no_op.
Proof.
  intros Hret Hb.
  destruct (generate_candidates_returns _ _ _ _ _ _ Hret) as (d & -> & _).
  unfold result, _SimpleDNNBuilder.build_mixture_weights_train_op.
  rewrite run_attr.
  apply elem_of_cons in Hb as [->|Hb];
    [|apply elem_of_cons in Hb as [->|Hb]; [|now apply elem_of_nil in Hb]];
    cbn; now destruct (SimpleDNNGenerator.learn_mixture_weights _).
Qed.

Lemma candidates_learn_mixture_weights_witness :
  result (_SimpleDNNBuilder.build_mixture_weights_train_op
            (tf.placeholder "loss") ["weight"] (tf.placeholder "logits")
            (tf.placeholder "labels") (tf.placeholder "iteration_step")
            (adanet.summary_scope "adanet")) (notebook_builder 1)
  = Return tf.no_op.
Proof.
  apply (candidates_learn_mixture_weights (notebook_generator false) None 0 [] []
           [notebook_builder 0; notebook_builder 1] (notebook_builder 1)).
  - reflexivity.
  - apply list_elem_of_further, list_elem_of_here.
Defined.

(** X13: no method of a builder changes the builder: after
    [build_subnetwork], either train op, or [name], returned or raised, the
    builder holds what it held. *)
Theorem builder_methods_read_only
    (b : _SimpleDNNBuilder.t) (features : gmap string tf.Tensor)
    (logits_dimension : Z) (training : bool)
    (subnetwork : adanet.Subnetwork) (loss : tf.Tensor) (var_list : list string)
    (logits labels iteration_step : tf.Tensor) (summary : adanet.Summary)
    (previous_ensemble : option adanet.Ensemble) :
  after (_SimpleDNNBuilder.build_subnetwork features logits_dimension training
           iteration_step summary previous_ensemble) b = b
  ∧ after (_SimpleDNNBuilder.build_subnetwork_train_op subnetwork loss var_list
             labels iteration_step summary previous_ensemble) b = b
  ∧ after (_SimpleDNNBuilder.build_mixture_weights_train_op loss var_list
             logits labels iteration_step summary) b = b
  ∧ after _SimpleDNNBuilder.name b = b.
Proof.
  split_and!.
  - apply build_subnetwork_read_only.
  - unfold _SimpleDNNBuilder.build_subnetwork_train_op.
    revert b. change (read_only (attr _SimpleDNNBuilder._optimizer ≫=
      λ optimizer, mret (tf.minimize optimizer loss var_list))). read_only.
  - unfold _SimpleDNNBuilder.build_mixture_weights_train_op.
    revert b. change (read_only (attr _SimpleDNNBuilder._learn_mixture_weights ≫=
      λ learn_mixture_weights,
        if negb learn_mixture_weights then mret tf.no_op
        else attr _SimpleDNNBuilder._optimizer ≫=
               λ optimizer, mret (tf.minimize optimizer loss var_list))).
    apply read_only_bind; [apply read_only_attr|]. intros [|]; cbn; read_only.
  - unfold after. now rewrite name_run.
Qed.

(** X14: two candidates have the same name exactly when they have the same
    depth, so an architecture printed as a list of names tells the depths of
    its members. *)
Theorem name_tells_depth (b1 b2 : _SimpleDNNBuilder.t) :
  result _SimpleDNNBuilder.name b1 = result _SimpleDNNBuilder.name b2
  ↔ _SimpleDNNBuilder._num_layers b1 = _SimpleDNNBuilder._num_layers b2.
Proof.
  split; [apply name_inj|].
  intros E. unfold result. now rewrite !name_run, E.
Qed.

(** X15: a seeded generator seeds the candidates of different rounds
    differently and those of one round alike; an unseeded generator leaves
    every candidate unseeded. *)
Theorem seeds_by_round
    (g : SimpleDNNGenerator.t) (ensemble1 ensemble2 : option adanet.Ensemble)
    (round1 round2 : Z)
    (reports1 all_reports1 reports2 all_reports2 : list adanet.MaterializedReport)
    (candidates1 candidates2 : list _SimpleDNNBuilder.t)
    (b1 b2 : _SimpleDNNBuilder.t) :
  result (SimpleDNNGenerator.generate_candidates ensemble1 round1
            reports1 all_reports1) g = Return candidates1 →
  result (SimpleDNNGenerator.generate_candidates ensemble2 round2
            reports2 all_reports2) g = Return candidates2 →
  b1 ∈ candidates1 → b2 ∈ candidates2 →
  match SimpleDNNGenerator._seed g with
  | Some _ =>
      _SimpleDNNBuilder._seed b1 = _SimpleDNNBuilder._seed b2 ↔ round1 = round2
  | None =>
      _SimpleDNNBuilder._seed b1 = None ∧ _SimpleDNNBuilder._seed b2 = None
  end.
Proof.
  intros H1 H2 Hb1 Hb2.
  destruct (generate_candidates_returns _ _ _ _ _ _ H1) as (d1 & -> & _).
  destruct (generate_candidates_returns _ _ _ _ _ _ H2) as (d2 & -> & _).
  assert (S1 : _SimpleDNNBuilder._seed b1 = round_seed g round1).
  { apply elem_of_cons in Hb1 as [->|Hb1]; [reflexivity|].
    apply elem_of_cons in Hb1 as [->|Hb1]; [reflexivity|].
    now apply elem_of_nil in Hb1. }
  assert (S2 : _SimpleDNNBuilder._seed b2 = round_seed g round2).
  { apply elem_of_cons in Hb2 as [->|Hb2]; [reflexivity|].
    apply elem_of_cons in Hb2 as [->|Hb2]; [reflexivity|].
    now apply elem_of_nil in Hb2. }
  rewrite S1, S2. unfold round_seed.
  destruct (SimpleDNNGenerator._seed g) as [s|]; [|now split].
  split; [intros [= E]; lia|now intros ->].
Qed.

Lemma seeds_by_round_witness :
  _SimpleDNNBuilder._seed (round_builder (notebook_generator true) 0 1)
  = _SimpleDNNBuilder._seed (round_builder (notebook_generator true) 1 2)
  ↔ 0 = 1.
Proof.
  apply (seeds_by_round (notebook_generator true) None (Some (ensemble [1])) 0 1
           [] [] [] []
           [round_builder (notebook_generator true) 0 0;
            round_builder (notebook_generator true) 0 1]
           [round_builder (notebook_generator true) 1 1;
            round_builder (notebook_generator true) 1 2]).
  - reflexivity.
  - reflexivity.
  - apply list_elem_of_further, list_elem_of_here.
  - apply list_elem_of_further, list_elem_of_here.
Defined.

(** ** More on the binary32 score *)

(** The binary32 score of [d < 2^24] is [rsqrt (d * N^2) / N] for a power of
    two [N]. *)
Lemma float32_score_scaled (d : Z) :
  0 < d < 2 ^ 24 →
  ∃ N : Z,
    0 < N
    ∧ float32_real (float32_score_of_depth d)
      = Some (IZR (rsqrt (d * (N * N))) * / IZR N)%R.
Proof.
  intros Hd.
  destruct (to_float32_spec d) as (k & X & P & rec & Hk & Hk31 & HX & HP & Hloc & Hb & Hc);
    [lia|].
  assert (Hk24 : k ≤ 24).
  { assert (2 ^ (k - 1) < 2 ^ 24) as Hp by lia.
    apply Z.pow_lt_mono_r_iff in Hp; lia. }
  replace (Z.max 0 (k - 24)) with 0 in HP by lia.
  replace (Z.max 0 (24 - k)) with (24 - k) in HX by lia.
  change (2 ^ 0) with 1 in HP. subst P.
  rewrite (located_1 X rec Hloc) in Hb, Hc.
  assert (HX24 : X < 2 ^ 24).
  { assert (2 ^ k * 2 ^ (24 - k) = 2 ^ 24)
      by (rewrite <- Z.pow_add_r by lia; f_equal; lia).
    assert (0 < 2 ^ (24 - k)) by (apply Z.pow_pos_nonneg; lia). nia. }
  unfold float32_score_of_depth. rewrite Hc.
  unfold pack at 1. destruct (Z.ltb_spec X (2 ^ 24)) as [_|]; [|lia].
  destruct (SFsqrt_spec (Z.to_pos X) (k - 24)) as (E' & s & HE' & Hs & Hcase & ->);
    [rewrite Z2Pos.id by lia; lia|lia|].
  rewrite Z2Pos.id by lia.
  assert (Hx : 2 ^ 46 ≤ X * 2 ^ s < 2 ^ 48) by (destruct Hcase as [-> | ->]; lia).
  destruct (rsqrt_bounds _ Hx) as [_ HM].
  rewrite (float32_real_pack _ _ HM).
  pose proof (Z.div2_odd (25 + (k - 24))) as Hdiv.
  assert (HE'neg : E' ≤ -12) by (destruct (Z.odd _); simpl in Hdiv; lia).
  exists (2 ^ (- E')).
  assert (HN : 0 < 2 ^ (- E')) by (apply Z.pow_pos_nonneg; lia).
  split; [exact HN|].
  assert (HxN : X * 2 ^ s = d * (2 ^ (- E') * 2 ^ (- E'))).
  { rewrite HX. rewrite <- !Z.pow_add_r by lia.
    rewrite <- Z.mul_assoc, <- Z.pow_add_r by lia. do 2 f_equal. lia. }
  rewrite HxN. do 2 f_equal.
  rewrite IZR_pow2 by lia. rewrite powerRZ_neg'. now rewrite Rinv_inv.
Qed.

Lemma rsqrt_square (m : Z) : 0 ≤ m → rsqrt (m * m) = m.
Proof.
  intros Hm. unfold rsqrt. rewrite Z.sqrt_square by lia.
  replace (m * m - m * m) with 0 by lia.
  now destruct (Z.leb_spec 0 m); [|lia].
Qed.

(** X16: on a perfect square the binary32 score is exact: a builder of depth
    [n * n] scores [n], as depths 0, 1 and 4 score 0, 1 and 2. *)
Theorem score_float32_of_square (b : _SimpleDNNBuilder.t) (n : Z) :
  0 ≤ n < 2 ^ 12 →
  _SimpleDNNBuilder._num_layers b = n * n →
  ∃ x : spec_float,
    score_float32 b = Some (tf.float32 x) ∧ float32_real x = Some (IZR n).
Proof.
  intros Hn Hd. exists (float32_score_of_depth (n * n)). split.
  - rewrite <- Hd. apply score_float32_of_depth.
    rewrite Hd. unfold tf.int32_max. nia.
  - destruct (Z.eq_dec n 0) as [->|Hpos]; [reflexivity|].
    destruct (float32_score_scaled (n * n)) as (N & HN & ->); [nia|].
    replace (n * n * (N * N)) with ((n * N) * (n * N)) by lia.
    rewrite rsqrt_square by nia. rewrite mult_IZR. f_equal.
    field. apply not_0_IZR. lia.
Qed.

Lemma score_float32_of_square_witness :
  ∃ x : spec_float,
    score_float32 (notebook_builder 9) = Some (tf.float32 x)
    ∧ float32_real x = Some (IZR 3).
Proof.
  apply (score_float32_of_square (notebook_builder 9) 3).
  - lia.
  - reflexivity.
Defined.

(** X17: below depth [2^22] the binary32 score separates the depths: the
    deeper of two builders has the strictly larger score, although both
    scores are rounded. *)
Theorem score_float32_strictly_increasing (b1 b2 : _SimpleDNNBuilder.t) :
  0 ≤ _SimpleDNNBuilder._num_layers b1 →
  _SimpleDNNBuilder._num_layers b1 < _SimpleDNNBuilder._num_layers b2 →
  _SimpleDNNBuilder._num_layers b2 < 2 ^ 22 →
  ∃ (x1 x2 : spec_float) (v1 v2 : R),
    score_float32 b1 = Some (tf.float32 x1)
    ∧ score_float32 b2 = Some (tf.float32 x2)
    ∧ float32_real x1 = Some v1
    ∧ float32_real x2 = Some v2
    ∧ (v1 < v2)%R.
Proof.
  intros H1 H12 H2.
  set (d1 := _SimpleDNNBuilder._num_layers b1) in *.
  set (d2 := _SimpleDNNBuilder._num_layers b2) in *.
  destruct (float32_score_accurate d1) as (v1 & Hv1 & Hacc1); [lia|].
  destruct (float32_score_accurate d2) as (v2 & Hv2 & Hacc2); [lia|].
  exists (float32_score_of_depth d1), (float32_score_of_depth d2), v1, v2.
  split_and!; try assumption.
  - apply score_float32_of_depth. fold d1. unfold tf.int32_max. lia.
  - apply score_float32_of_depth. fold d2. unfold tf.int32_max. lia.
  - pose proof (sqrt_pos (IZR d1)) as Hs1.
    pose proof (sqrt_sqrt (IZR d1) ltac:(apply (IZR_le 0); lia)) as Hq1.
    pose proof (sqrt_sqrt (IZR d2) ltac:(apply (IZR_le 0); lia)) as Hq2.
    assert (Hs12 : (sqrt (IZR d1) < sqrt (IZR d2))%R).
    { apply sqrt_lt_1_alt. split; [apply (IZR_le 0); lia|apply IZR_lt; lia]. }
    assert (Hgap : (1 <= IZR d2 - IZR d1)%R).
    { rewrite <- minus_IZR. apply (IZR_le 1). lia. }
    assert (Hd2 : (IZR d2 < 2 ^ 22)%R).
    { replace (2 ^ 22)%R with (IZR (2 ^ 22)) by (simpl; lra).
      apply IZR_lt. lia. }
    set (s1 := sqrt (IZR d1)) in *. set (s2 := sqrt (IZR d2)) in *.
    unfold Rabs in Hacc1, Hacc2.
    destruct (Rcase_abs (v1 - s1)), (Rcase_abs (v2 - s2));
      (assert (Ht : ((s1 + s2) * (s1 + s2) < 2 ^ 24)%R) by nra;
       assert (Hkey : (s1 + s2 < (s2 - s1) * 2 ^ 24)%R)
         by (assert (((s2 - s1) * (s1 + s2) >= 1)%R) by nra;
             apply Rnot_le_lt; intros Hcontra;
             assert (((s2 - s1) * 2 ^ 24 * (s1 + s2) <= (s1 + s2) * (s1 + s2))%R)
               by nra;
             nra);
       lra).
Qed.

Lemma score_float32_strictly_increasing_witness :
  ∃ (x1 x2 : spec_float) (v1 v2 : R),
    score_float32 (notebook_builder 2) = Some (tf.float32 x1)
    ∧ score_float32 (notebook_builder 3) = Some (tf.float32 x2)
    ∧ float32_real x1 = Some v1
    ∧ float32_real x2 = Some v2
    ∧ (v1 < v2)%R.
Proof.
  apply (score_float32_strictly_increasing (notebook_builder 2) (notebook_builder 3)).
  - simpl. lia.
  - simpl. lia.
  - simpl. lia.
Defined.

(** ** The input pipeline *)

Lemma element_features_input_dataset (partition : string) (training : bool)
    (batch_size : Z) :
  data.element_features (input_dataset partition training batch_size)
  = {[ FEATURES_KEY :=
         data.log1p (if String.eqb partition "train" then data.x_train
                     else data.x_test) ]}.
Proof.
  unfold input_dataset.
  now destruct (String.eqb partition "train"), training.
Qed.



(** X19: [input_fn] reads the training arrays for the partition ["train"]
    and the test arrays for every other string, a misspelt ["Train"]
    included. *)
Theorem input_fn_partition (partition : string) (training : bool) (batch_size : Z) :
  let dataset := input_dataset partition training batch_size in
  (partition = "train" →
     data.element_features dataset !! FEATURES_KEY = Some (data.log1p data.x_train)
     ∧ data.labels_of dataset = data.log1p data.y_train)
  ∧ (partition ≠ "train" →
     data.element_features dataset !! FEATURES_KEY = Some (data.log1p data.x_test)
     ∧ data.labels_of dataset = data.log1p data.y_test
     ∧ dataset = input_dataset "test" training batch_size).
Proof.
  cbv zeta. rewrite element_features_input_dataset, lookup_singleton_eq.
  unfold input_dataset.
  destruct (String.eqb_spec partition "train") as [->|Hne].
  - split; [intros _|contradiction]. now destruct training.
  - split; [contradiction|intros _]. now destruct training.
Qed.

Lemma input_fn_partition_witness :
  data.element_features (input_dataset "Train" true 32) !! FEATURES_KEY
  = Some (data.log1p data.x_test)
  ∧ data.labels_of (input_dataset "Train" true 32) = data.log1p data.y_test
  ∧ input_dataset "Train" true 32 = input_dataset "test" true 32.
Proof.
  apply (proj2 (input_fn_partition "Train" true 32)). discriminate.
Defined.

(** X20: the dataset of [input_fn] goes on for ever exactly when
    [training] is set, and is shuffled exactly then; no shuffle runs over a
    repeated dataset, so epochs do not blend. *)
Theorem input_fn_pipeline (partition : string) (training : bool) (batch_size : Z) :
  let dataset := input_dataset partition training batch_size in
  data.repeats dataset = training
  ∧ data.shuffles dataset = training
  ∧ data.epochs_apart dataset = true.
Proof.
  cbv zeta. unfold input_dataset.
  now destruct (String.eqb partition "train"), training.
Qed.

(** ** Reading the architecture *)

(** X21: [ensemble_architecture] returns a string exactly when the result
    holds the architecture entry, the entry parses, and the parsed summary
    has a first value with a first string, which is the string returned;
    further values and strings are not looked at.  Without the entry it
    raises [KeyError] and the parser is not called. *)
Theorem ensemble_architecture_returns
    (FromString : string → Outcome summary_pb.Summary)
    (results : gmap string string) (architecture : string) :
  (ensemble_architecture FromString results = Return architecture
   ↔ ∃ bytes first_value values strings,
       results !! "architecture/adanet/ensembles" = Some bytes
       ∧ FromString bytes
         = Return {| summary_pb.value := first_value :: values |}
       ∧ summary_pb.string_val (summary_pb.tensor first_value)
         = architecture :: strings)
  ∧ (results !! "architecture/adanet/ensembles" = None →
     ensemble_architecture FromString results = Raise KeyError).
Proof.
  unfold ensemble_architecture. split.
  - destruct (results !! "architecture/adanet/ensembles") as [bytes|]; cbn.
    + destruct (FromString bytes) as [[[|first_value values]]|e] eqn:Hparse; cbn.
      * split; [discriminate|]. intros (? & ? & ? & ? & [= <-] & Hp & _).
        rewrite Hparse in Hp. discriminate.
      * destruct (summary_pb.string_val (summary_pb.tensor first_value))
          as [|s strings] eqn:Hs; cbn.
        -- split; [discriminate|]. intros (? & ? & ? & ? & [= <-] & Hp & Hs').
           rewrite Hparse in Hp. injection Hp as <- <-. congruence.
        -- split.
           ++ intros [= <-]. now exists bytes, first_value, values, strings.
           ++ intros (? & ? & ? & ? & [= <-] & Hp & Hs').
              rewrite Hparse in Hp. injection Hp as <- <-. congruence.
      * split; [discriminate|]. intros (? & ? & ? & ? & [= <-] & Hp & _).
        rewrite Hparse in Hp. discriminate.
    + split; [discriminate|]. intros (? & ? & ? & ? & [=] & _).
  - now intros ->.
Qed.

Lemma ensemble_architecture_returns_witness :
  ensemble_architecture
    (λ bytes,
       if String.eqb bytes "serialized" then
         Return {| summary_pb.value :=
                     [ {| summary_pb.tensor :=
                            {| summary_pb.string_val :=
                                 ["| linear | 1_layer_dnn |"; "unread"] |} |};
                       {| summary_pb.tensor :=
                            {| summary_pb.string_val := [] |} |} ] |}
       else Raise TypeError)
    {[ "architecture/adanet/ensembles" := "serialized"; "average_loss" := "0.03" ]}
  = Return "| linear | 1_layer_dnn |".
Proof.
  apply (proj2 (proj1 (ensemble_architecture_returns
                         (λ bytes,
                            if String.eqb bytes "serialized" then
                              Return {| summary_pb.value :=
                                          [ {| summary_pb.tensor :=
                                                 {| summary_pb.string_val :=
                                                      ["| linear | 1_layer_dnn |";
                                                       "unread"] |} |};
                                            {| summary_pb.tensor :=
                                                 {| summary_pb.string_val := [] |} |} ] |}
                            else Raise TypeError)
                         {[ "architecture/adanet/ensembles" := "serialized";
                            "average_loss" := "0.03" ]}
                         "| linear | 1_layer_dnn |"))).
  exists "serialized",
    {| summary_pb.tensor :=
         {| summary_pb.string_val := ["| linear | 1_layer_dnn |"; "unread"] |} |},
    [ {| summary_pb.tensor := {| summary_pb.string_val := [] |} |} ],
    ["unread"].
  split_and!; reflexivity.
Defined.
